(** * Tenant context store and access-control mixins of EduERP

    A shallow embedding of
      - [apps/core/utils/tenant.py]        (thread-local tenant store), and
      - [apps/core/permissions/mixins.py]  (permission, role, tenant and
        object-level access mixins),
    followed by the properties the specification states about them. *)

From Stdlib Require Import Bool List String ZArith Lia Permutation.
Import ListNotations.
Local Open Scope string_scope.
Local Open Scope Z_scope.

(** ** Exceptions and outcomes

    The exceptions the two modules raise or let through.  [OtherError]
    stands for whatever a caller-supplied body raises. *)

Inductive exn : Type :=
| PermissionDenied
| Http404 (msg : string)
| AttributeError (attr : string)
| OtherError (name : string).

Inductive outcome (A : Type) : Type :=
| Return (a : A)
| Raise (e : exn).

Arguments Return {A} a.
Arguments Raise {A} e.

Definition bind_outcome {A B : Type} (r : outcome A) (k : A -> outcome B)
  : outcome B :=
  match r with
  | Return a => k a
  | Raise e => Raise e
  end.

(** ** apps/core/utils/tenant.py *)

Module TenantStore.

Section Store.

(** The objects stored as "tenant" are opaque to this module. *)
Context {tenant : Type}.

(** A Python value that is either [None] or a tenant object. *)
Definition pyvalue : Type := option tenant.

(** [_thread_locals = threading.local()]: a namespace on which the
    attribute [tenant] is either unbound ([None] here) or bound to a
    Python value (which may itself be Python's [None]). *)
Record thread_locals : Type := { attr_tenant : option pyvalue }.

(** The fresh namespace of a thread that never set a tenant. *)
Definition fresh : thread_locals := {| attr_tenant := None |}.

Definition hasattr_tenant (s : thread_locals) : bool :=
  match attr_tenant s with Some _ => true | None => false end.

(** Code that runs against the store and may raise. *)
Definition M (A : Type) : Type := thread_locals -> outcome A * thread_locals.

Definition ret {A} (a : A) : M A := fun s => (Return a, s).

Definition bind {A B} (m : M A) (k : A -> M B) : M B :=
  fun s =>
    match m s with
    | (Return a, s') => k a s'
    | (Raise e, s') => (Raise e, s')
    end.

(** [try: body finally: fin] -- the handler runs on every exit of the
    body; the body's outcome is kept unless the handler itself raises. *)
Definition try_finally {A} (body : M A) (fin : M unit) : M A :=
  fun s =>
    let '(r, s1) := body s in
    match fin s1 with
    | (Return _, s2) => (r, s2)
    | (Raise e, s2) => (Raise e, s2)
    end.

(** [_thread_locals.tenant = tenant] *)
Definition set_current_tenant (t : pyvalue) : M unit :=
  fun _ => (Return tt, {| attr_tenant := Some t |}).

(** [return getattr(_thread_locals, 'tenant', None)] *)
Definition get_current_tenant : M pyvalue :=
  fun s =>
    (Return (match attr_tenant s with Some v => v | None => None end), s).

(** [if hasattr(_thread_locals, 'tenant'): delattr(_thread_locals, 'tenant')] *)
Definition clear_tenant : M unit :=
  fun s =>
    if hasattr_tenant s
    then (Return tt, {| attr_tenant := None |})
    else (Return tt, s).

(** [with tenant_context(tenant): body] -- the generator runs up to its
    [yield], the body of the [with] statement runs, and the generator's
    [finally] clause runs whether the body returned or raised. *)
Definition tenant_context {A} (t : pyvalue) (body : M A) : M A :=
  bind get_current_tenant (fun old_tenant =>
  bind (set_current_tenant t) (fun _ =>
  try_finally body (set_current_tenant old_tenant))).

(** What [get_current_tenant()] answers in a given store. *)
Definition current (s : thread_locals) : pyvalue :=
  match fst (get_current_tenant s) with
  | Return v => v
  | Raise _ => None
  end.

End Store.

Arguments thread_locals : clear implicits.
Arguments pyvalue : clear implicits.
Arguments M : clear implicits.

End TenantStore.

(** ** apps/core/permissions/mixins.py *)

Module Mixins.

(** *** The objects the mixins look at

    Model instances ([Tenant], [User]) compare by primary key, so a
    reference to one is represented by its key. *)

Inductive pyval : Type :=
  | PNone
  | PTenant (pk : Z)
  | PUser (pk : Z).

Definition pyval_eqb (a b : pyval) : bool :=
  match a, b with
  | PNone, PNone => true
  | PTenant x, PTenant y => Z.eqb x y
  | PUser x, PUser y => Z.eqb x y
  | _, _ => false
  end.

(** A fetched model instance: its key and its attributes by name. *)
Record Resource : Type := {
  res_pk : Z;
  res_attrs : list (string * pyval)
}.

Fixpoint lookup_attr (name : string) (attrs : list (string * pyval))
  : option pyval :=
  match attrs with
  | [] => None
  | (k, x) :: rest => if String.eqb k name then Some x else lookup_attr name rest
  end.

(** [getattr(obj, name)]: raises when the attribute is missing. *)
Definition getattr (obj : Resource) (name : string) : outcome pyval :=
  match lookup_attr name (res_attrs obj) with
  | Some x => Return x
  | None => Raise (AttributeError name)
  end.

(** [getattr(obj, name, default)] *)
Definition getattr_default (obj : Resource) (name : string) (default : pyval)
  : pyval :=
  match lookup_attr name (res_attrs obj) with
  | Some x => x
  | None => default
  end.

(** A row of the user model.  [user_has_perm perm obj] is the answer of
    [user.has_perm(perm, obj)], which the authentication backends compute;
    [obj = None] is the call with one argument. *)
Record User : Type := {
  user_pk : Z;
  user_is_superuser : bool;
  user_role : string;
  user_tenant : option Z;
  user_has_perm : string -> option Resource -> bool
}.

(** [request.user]: Django's [AnonymousUser] (not authenticated, not a
    superuser, holds no permission, has neither [role] nor [tenant]) or an
    authenticated row of the user model. *)
Inductive request_user : Type :=
  | AnonymousUser
  | Authenticated (u : User).

Definition is_authenticated (user : request_user) : bool :=
  match user with AnonymousUser => false | Authenticated _ => true end.

Definition is_superuser (user : request_user) : bool :=
  match user with AnonymousUser => false | Authenticated u => user_is_superuser u end.

Definition has_perm (user : request_user) (perm : string) (obj : option Resource)
  : bool :=
  match user with
  | AnonymousUser => false
  | Authenticated u => user_has_perm u perm obj
  end.

(** [user.role] and [user.tenant]; [AnonymousUser] has neither. *)
Definition role_of (user : request_user) : outcome string :=
  match user with
  | AnonymousUser => Raise (AttributeError "role")
  | Authenticated u => Return (user_role u)
  end.

Definition of_tenant (t : option Z) : pyval :=
  match t with Some pk => PTenant pk | None => PNone end.

Definition tenant_of (user : request_user) : outcome pyval :=
  match user with
  | AnonymousUser => Raise (AttributeError "tenant")
  | Authenticated u => Return (of_tenant (user_tenant u))
  end.

(** [value == user] for an attribute value and [request.user]. *)
Definition eq_user (x : pyval) (user : request_user) : bool :=
  match x, user with
  | PUser pk, Authenticated u => Z.eqb pk (user_pk u)
  | _, _ => false
  end.

(** *** Declared requirements

    A class attribute that holds [None], a [str], or a [list]/[tuple] of
    [str]. *)
Inductive attr : Type :=
  | ANone
  | AStr (s : string)
  | ASeq (l : list string).

(** Python's truth value: [None], the empty string and the empty sequence
    are false. *)
Definition truthy (a : attr) : bool :=
  match a with
  | ANone => false
  | AStr s => negb (String.eqb s "")
  | ASeq l => match l with [] => false | _ :: _ => true end
  end.

Definition truthy_str (a : option string) : bool :=
  match a with
  | None => false
  | Some s => negb (String.eqb s "")
  end.

Definition truthy_int (a : option Z) : bool :=
  match a with
  | None => false
  | Some n => negb (Z.eqb n 0)
  end.

(** Iterating a string yields its characters as one-character strings. *)
Fixpoint chars (s : string) : list string :=
  match s with
  | EmptyString => []
  | String c rest => String c EmptyString :: chars rest
  end.

(** [for perm in a] *)
Definition iter (a : attr) : list string :=
  match a with
  | ANone => []
  | AStr s => chars s
  | ASeq l => l
  end.

(** [x in a]: substring test on a string, membership in a sequence. *)
Definition py_in (x : string) (a : attr) : bool :=
  match a with
  | ANone => false
  | AStr s => match String.index 0 x s with Some _ => true | None => false end
  | ASeq l => existsb (String.eqb x) l
  end.

(** The class attributes of a view built from the mixins. *)
Record View : Type := {
  permission_required : attr;
  permission_required_any : attr;
  raise_exception : bool;
  roles_required : attr;
  roles_required_any : attr;
  min_role_level : option Z;
  tenant_field : string;
  allow_superuser : bool;
  object_permission_required : option string
}.

(** The values the classes give these attributes. *)
Definition default_view : View := {|
  permission_required := ANone;
  permission_required_any := ANone;
  raise_exception := true;
  roles_required := ANone;
  roles_required_any := ANone;
  min_role_level := None;
  tenant_field := "tenant";
  allow_superuser := true;
  object_permission_required := None
|}.

(** [d.get(key, default)] on a dictionary given by its items. *)
Fixpoint dict_get (d : list (string * Z)) (key : string) (default : Z) : Z :=
  match d with
  | [] => default
  | (k, x) :: rest => if String.eqb k key then x else dict_get rest key default
  end.

(** *** class PermissionRequiredMixin *)

Module PermissionRequiredMixin.

Definition get_permission_required (v : View) : attr := permission_required v.

Definition has_permission (v : View) (user : request_user) : bool :=
  if negb (is_authenticated user) then false
  else if is_superuser user then true
  else
    (* the branch, if any, that returns under [if self.permission_required:] *)
    let declared :=
      if truthy (permission_required v) then
        match permission_required v with
        | AStr s => Some (has_perm user s None)
        | ASeq l => Some (forallb (fun perm => has_perm user perm None) l)
        | ANone => None
        end
      else None in
    match declared with
    | Some answer => answer
    | None =>
        if truthy (permission_required_any v)
        then existsb (fun perm => has_perm user perm None)
                     (iter (permission_required_any v))
        else true
    end.

(** [self.has_permission()] is looked up on the view, so a subclass's
    override is what [dispatch] calls: it is an argument here, as are
    [self.handle_no_permission()] and [super().dispatch(...)]. *)
Definition dispatch {R : Type} (v : View) (self_has_permission : bool)
    (handle_no_permission super_dispatch : outcome R) : outcome R :=
  if negb self_has_permission then
    if raise_exception v then Raise PermissionDenied
    else handle_no_permission
  else super_dispatch.

End PermissionRequiredMixin.

(** *** class RoleRequiredMixin *)

Module RoleRequiredMixin.

Section Hierarchy.

(** [ROLE_HIERARCHY] is imported from [apps.users.models], which is not
    among the sources; the table is a parameter. *)
Variable ROLE_HIERARCHY : list (string * Z).

Definition get_roles_required (v : View) : attr := roles_required v.

Definition has_role_permission (v : View) (user : request_user) : bool :=
  match user with
  | AnonymousUser => false            (* [not user.is_authenticated] *)
  | Authenticated u =>
      if user_is_superuser u then true
      else
        let declared :=
          if truthy (roles_required v) then
            match roles_required v with
            | AStr s => Some (String.eqb (user_role u) s)
            | ASeq l => Some (py_in (user_role u) (ASeq l))
            | ANone => None
            end
          else None in
        match declared with
        | Some answer => answer
        | None =>
            if truthy (roles_required_any v)
            then py_in (user_role u) (roles_required_any v)
            else if truthy_int (min_role_level v) then
              match min_role_level v with
              | Some level =>
                  let user_level := dict_get ROLE_HIERARCHY (user_role u) 0 in
                  Z.geb user_level level
              | None => true
              end
            else true
        end
  end.

Definition dispatch {R : Type} (v : View) (user : request_user)
    (handle_no_permission super_dispatch : outcome R) : outcome R :=
  if negb (has_role_permission v user) then
    if raise_exception v then Raise PermissionDenied
    else handle_no_permission
  else super_dispatch.

End Hierarchy.

End RoleRequiredMixin.

(** *** class TenantAccessMixin *)

Module TenantAccessMixin.

(** [queryset.filter(field=value)], the keyword being the name held in
    [field]: the rows whose column [field] equals [value] ([None]
    matches the rows where it is null).

    This is the filter for a keyword that names a column of the rows'
    model referring to the model of [value].  For any other keyword the
    ORM does something a list of rows cannot tell: it raises [FieldError]
    for a name that is no field of the model and [ValueError] for a value
    of another model, and it follows the relations that a name with a
    double underscore spells.  The properties of the tenant filter are
    therefore stated for tenant columns ([tenant_column] below) and for
    the calls that return. *)
Definition queryset_filter (field : string) (value : pyval)
    (queryset : list Resource) : list Resource :=
  filter (fun row =>
            match lookup_attr field (res_attrs row) with
            | Some x => pyval_eqb x value
            | None => false
            end) queryset.

(** [super_queryset] is what [super().get_queryset()] returned. *)
Definition get_queryset (v : View) (user : request_user)
    (super_queryset : list Resource) : outcome (list Resource) :=
  if is_superuser user && allow_superuser v then Return super_queryset
  else
    bind_outcome (tenant_of user) (fun tenant =>
    Return (queryset_filter (tenant_field v) tenant super_queryset)).

(** [super_get_object] is the outcome of [super().get_object(queryset)]:
    the object, or [Http404] when no row matches. *)
Definition get_object (v : View) (user : request_user)
    (super_get_object : outcome Resource) : outcome Resource :=
  bind_outcome super_get_object (fun obj =>
  if is_superuser user && allow_superuser v then Return obj
  else
    bind_outcome (getattr obj (tenant_field v)) (fun obj_tenant =>
    bind_outcome (tenant_of user) (fun tenant =>
    if negb (pyval_eqb obj_tenant tenant)
    then Raise (Http404 "Object not found or you don't have permission to view it")
    else Return obj))).

End TenantAccessMixin.

(** *** class ObjectPermissionMixin *)

Module ObjectPermissionMixin.

Definition has_object_permission (v : View) (user : request_user)
    (obj : Resource) : bool :=
  if is_superuser user then true
  else if truthy_str (object_permission_required v) then
    match object_permission_required v with
    | Some perm => has_perm user perm (Some obj)
    | None => false
    end
  else
    eq_user (getattr_default obj "user" PNone) user
    || eq_user (getattr_default obj "created_by" PNone) user.

(** [self_get_object] is [None] when the view has no [get_object]
    attribute, and otherwise the outcome of [self.get_object()]. *)
Definition dispatch {R : Type} (v : View) (user : request_user)
    (self_get_object : option (outcome Resource))
    (super_dispatch : outcome R) : outcome R :=
  match self_get_object with
  | Some fetched =>
      bind_outcome fetched (fun obj =>
      if negb (has_object_permission v user obj) then Raise PermissionDenied
      else super_dispatch)
  | None => super_dispatch
  end.

End ObjectPermissionMixin.

(** *** class RoleBasedViewMixin(PermissionRequiredMixin, RoleRequiredMixin) *)

Module RoleBasedViewMixin.

Section Hierarchy.

Variable ROLE_HIERARCHY : list (string * Z).

Definition has_permission (v : View) (user : request_user) : bool :=
  if negb (RoleRequiredMixin.has_role_permission ROLE_HIERARCHY v user)
  then false
  else PermissionRequiredMixin.has_permission v user.

(** Method resolution order: [PermissionRequiredMixin.dispatch] with the
    overriding [has_permission], then [RoleRequiredMixin.dispatch]. *)
Definition dispatch {R : Type} (v : View) (user : request_user)
    (handle_no_permission super_dispatch : outcome R) : outcome R :=
  PermissionRequiredMixin.dispatch v (has_permission v user)
    handle_no_permission
    (RoleRequiredMixin.dispatch ROLE_HIERARCHY v user
       handle_no_permission super_dispatch).

End Hierarchy.

End RoleBasedViewMixin.

End Mixins.

Import Mixins.

(** ** Vocabulary of the properties *)

(** [field] is a tenant column of the rows: a foreign key of their model
    to the tenant model, so a keyword the ORM filters on, which every row
    carries as an attribute holding [None] or a tenant. *)
Definition tenant_column (field : string) (queryset : list Resource) : Prop :=
  forall row,
    In row queryset ->
    lookup_attr field (res_attrs row) = Some PNone
    \/ exists pk, lookup_attr field (res_attrs row) = Some (PTenant pk).

(** The level of a role in a hierarchy table, [0] for an unlisted role. *)
Definition role_level (table : list (string * Z)) (role : string) : Z :=
  dict_get table role 0.

(** The same view with another [permission_required_any]. *)
Definition with_permission_required_any (v : View) (a : attr) : View := {|
  permission_required := permission_required v;
  permission_required_any := a;
  raise_exception := raise_exception v;
  roles_required := roles_required v;
  roles_required_any := roles_required_any v;
  min_role_level := min_role_level v;
  tenant_field := tenant_field v;
  allow_superuser := allow_superuser v;
  object_permission_required := object_permission_required v
|}.

(** The response classes of the error taxonomy. *)
Inductive classification : Type := Forbidden | NotFound | ServerError.

Definition classify (e : exn) : classification :=
  match e with
  | PermissionDenied => Forbidden
  | Http404 _ => NotFound
  | AttributeError _ => ServerError
  | OtherError _ => ServerError
  end.

(** ** Sample data: two tenants, three users, two resources *)

Module Sample.

(** A hierarchy table in the order the specification gives as example. *)
Definition hierarchy : list (string * Z) :=
  [("super_admin", 100); ("admin", 80); ("staff", 60);
   ("teacher", 40); ("student", 20); ("guardian", 10)].

(** Staff member of tenant 1 holding exactly the permission [view_x]. *)
Definition p1 : User := {|
  user_pk := 1;
  user_is_superuser := false;
  user_role := "staff";
  user_tenant := Some 1;
  user_has_perm := fun perm obj =>
    match obj with None => String.eqb perm "view_x" | Some _ => false end
|}.

(** Teacher of tenant 1 holding no permission. *)
Definition p2 : User := {|
  user_pk := 2;
  user_is_superuser := false;
  user_role := "teacher";
  user_tenant := Some 1;
  user_has_perm := fun _ _ => false
|}.

(** A superuser without tenant. *)
Definition root : User := {|
  user_pk := 3;
  user_is_superuser := true;
  user_role := "super_admin";
  user_tenant := None;
  user_has_perm := fun _ _ => true
|}.

(** A resource of tenant 1 created by [p2], and one of tenant 2. *)
Definition o1 : Resource :=
  {| res_pk := 10; res_attrs := [("tenant", PTenant 1); ("created_by", PUser 2)] |}.

Definition o2 : Resource :=
  {| res_pk := 20; res_attrs := [("tenant", PTenant 2); ("created_by", PNone)] |}.

Definition rows : list Resource := [o1; o2].

(** [permission_required = 'view_x'] *)
Definition view_x : View := {|
  permission_required := AStr "view_x";
  permission_required_any := ANone;
  raise_exception := true;
  roles_required := ANone;
  roles_required_any := ANone;
  min_role_level := None;
  tenant_field := "tenant";
  allow_superuser := true;
  object_permission_required := None
|}.

(** [roles_required = 'admin'] together with [permission_required = 'view_x'] *)
Definition view_admin_x : View := {|
  permission_required := AStr "view_x";
  permission_required_any := ANone;
  raise_exception := true;
  roles_required := AStr "admin";
  roles_required_any := ANone;
  min_role_level := None;
  tenant_field := "tenant";
  allow_superuser := true;
  object_permission_required := None
|}.

(** [min_role_level = 40] *)
Definition view_level_40 : View := {|
  permission_required := ANone;
  permission_required_any := ANone;
  raise_exception := true;
  roles_required := ANone;
  roles_required_any := ANone;
  min_role_level := Some 40;
  tenant_field := "tenant";
  allow_superuser := true;
  object_permission_required := None
|}.

(** [permission_required_any = []] *)
Definition view_any_empty : View := {|
  permission_required := ANone;
  permission_required_any := ASeq [];
  raise_exception := true;
  roles_required := ANone;
  roles_required_any := ANone;
  min_role_level := None;
  tenant_field := "tenant";
  allow_superuser := true;
  object_permission_required := None
|}.

(** [allow_superuser = False] *)
Definition view_strict : View := {|
  permission_required := ANone;
  permission_required_any := ANone;
  raise_exception := true;
  roles_required := ANone;
  roles_required_any := ANone;
  min_role_level := None;
  tenant_field := "tenant";
  allow_superuser := false;
  object_permission_required := None
|}.

End Sample.

(** ** More vocabulary: views that differ in one declaration *)

(** The same view with another [permission_required]. *)
Definition with_permission_required (v : View) (a : attr) : View := {|
  permission_required := a;
  permission_required_any := permission_required_any v;
  raise_exception := raise_exception v;
  roles_required := roles_required v;
  roles_required_any := roles_required_any v;
  min_role_level := min_role_level v;
  tenant_field := tenant_field v;
  allow_superuser := allow_superuser v;
  object_permission_required := object_permission_required v
|}.

(** The same view with another [roles_required_any] and [min_role_level]. *)
Definition with_role_fallbacks (v : View) (a : attr) (level : option Z)
  : View := {|
  permission_required := permission_required v;
  permission_required_any := permission_required_any v;
  raise_exception := raise_exception v;
  roles_required := roles_required v;
  roles_required_any := a;
  min_role_level := level;
  tenant_field := tenant_field v;
  allow_superuser := allow_superuser v;
  object_permission_required := object_permission_required v
|}.

(** The keys of a dictionary given by its items. *)
Definition dict_keys (d : list (string * Z)) : list string := map fst d.

(** ** apps/core/utils/tenant.py, continued *)

Module TenantSchema.

Section Schema.

Context {tenant : Type}.

(** The attribute [schema_name] of a tenant object, when it has one. *)
Variable schema_name : tenant -> option string.

(** [get_tenant_schema(tenant)]; [None] has no attribute at all. *)
Definition get_tenant_schema (t : TenantStore.pyvalue tenant) : string :=
  match t with
  | Some obj =>
      match schema_name obj with
      | Some name => name            (* [hasattr(tenant, 'schema_name')] *)
      | None => "public"
      end
  | None => "public"
  end.

End Schema.

End TenantSchema.

(** ** apps/users/views.py

    The views that read the tenant store: the user list, the dashboard
    counters, user creation and the three flag toggles. *)

Module UserViews.

Import TenantStore.

(** The columns of a row of the user table these views read or write. *)
Record UserRow : Type := {
  row_pk : Z;
  row_tenant : option Z;
  row_is_active : bool;
  row_is_verified : bool;
  row_is_staff : bool
}.

(** Equality of two tenant references, [None] standing for a null column. *)
Definition tenant_eqb (a b : option Z) : bool :=
  match a, b with
  | Some x, Some y => Z.eqb x y
  | None, None => true
  | _, _ => false
  end.

(** [queryset.filter(tenant=tenant)] *)
Definition filter_tenant (tenant : option Z) (queryset : list UserRow)
  : list UserRow :=
  filter (fun r => tenant_eqb (row_tenant r) tenant) queryset.

(** [queryset.count()] *)
Definition count (queryset : list UserRow) : Z := Z.of_nat (List.length queryset).

(** An outcome computed without touching the store. *)
Definition lift {A : Type} (r : outcome A) : M Z A := fun s => (r, s).

(** *** class UserDashboardView *)

Record dashboard_context : Type := {
  total_users : Z;
  active_users : Z;
  verified_users : Z;
  staff_users : Z
}.

(** [get_context_data]: the four counters it adds to the context;
    [objects] is the user table behind [User.objects]. *)
Definition UserDashboardView_get_context_data (objects : list UserRow)
  : M Z dashboard_context :=
  bind get_current_tenant (fun tenant =>
  ret {|
    total_users := count (filter_tenant tenant objects);
    active_users :=
      count (filter (fun r => tenant_eqb (row_tenant r) tenant
                              && Bool.eqb (row_is_active r) true) objects);
    verified_users :=
      count (filter (fun r => tenant_eqb (row_tenant r) tenant
                              && Bool.eqb (row_is_verified r) true) objects);
    staff_users :=
      count (filter (fun r => tenant_eqb (row_tenant r) tenant
                              && Bool.eqb (row_is_staff r) true) objects)
  |}).

(** *** class UserListView *)

(** [get_queryset]; [super_queryset] is what [super().get_queryset()]
    returned. *)
Definition UserListView_get_queryset (super_queryset : list UserRow)
  : M Z (list UserRow) :=
  bind get_current_tenant (fun tenant =>
  ret (filter_tenant tenant super_queryset)).

(** *** class UserCreateView *)

(** The row with its tenant column set: [form.instance.tenant = tenant]. *)
Definition set_tenant (tenant : option Z) (r : UserRow) : UserRow := {|
  row_pk := row_pk r;
  row_tenant := tenant;
  row_is_active := row_is_active r;
  row_is_verified := row_is_verified r;
  row_is_staff := row_is_staff r
|}.

(** [form_valid]: the instance built from the form gets the current
    tenant and is inserted by [super().form_valid(form)]; the key the
    database gave it is the [row_pk] of [instance].  The view sets no
    ordering, so where the new row stands among the others is the
    database's choice: [position] is that choice.  The result is the
    table after the insertion. *)
Definition UserCreateView_form_valid (position : nat) (instance : UserRow)
    (objects : list UserRow) : M Z (list UserRow) :=
  bind get_current_tenant (fun tenant =>
  ret ((firstn position objects
          ++ set_tenant tenant instance :: skipn position objects)%list)).

(** *** The AJAX actions *)

(** [get_object_or_404(User, pk=pk, tenant=tenant)] *)
Definition get_object_or_404 (pk : Z) (tenant : option Z)
    (objects : list UserRow) : outcome UserRow :=
  match filter (fun r => Z.eqb (row_pk r) pk
                         && tenant_eqb (row_tenant r) tenant) objects with
  | [] => Raise (Http404 "No User matches the given query.")
  | [r] => Return r
  | _ :: _ :: _ => Raise (OtherError "MultipleObjectsReturned")
  end.

(** [user.save()] for a fetched row: the row with that key is rewritten. *)
Definition save (user : UserRow) (objects : list UserRow) : list UserRow :=
  map (fun r => if Z.eqb (row_pk r) (row_pk user) then user else r) objects.

Inductive json : Type :=
  | JBool (b : bool)
  | JStr (s : string).

(** The dictionary handed to [JsonResponse]. *)
Definition JsonResponse : Type := list (string * json).

(** [user.is_active = not user.is_active] and its two siblings. *)
Definition toggle_is_active (r : UserRow) : UserRow := {|
  row_pk := row_pk r;
  row_tenant := row_tenant r;
  row_is_active := negb (row_is_active r);
  row_is_verified := row_is_verified r;
  row_is_staff := row_is_staff r
|}.

Definition toggle_is_verified (r : UserRow) : UserRow := {|
  row_pk := row_pk r;
  row_tenant := row_tenant r;
  row_is_active := row_is_active r;
  row_is_verified := negb (row_is_verified r);
  row_is_staff := row_is_staff r
|}.

Definition toggle_is_staff (r : UserRow) : UserRow := {|
  row_pk := row_pk r;
  row_tenant := row_tenant r;
  row_is_active := row_is_active r;
  row_is_verified := row_is_verified r;
  row_is_staff := negb (row_is_staff r)
|}.

(** [ToggleUserStatusView.post]: the response and the table after
    [user.save()]; nothing was written when the fetch raised. *)
Definition ToggleUserStatusView_post (pk : Z) (objects : list UserRow)
  : M Z (JsonResponse * list UserRow) :=
  bind get_current_tenant (fun tenant =>
  bind (lift (get_object_or_404 pk tenant objects)) (fun user =>
  let user := toggle_is_active user in
  ret ([("success", JBool true);
        ("is_active", JBool (row_is_active user));
        ("message",
         JStr (if row_is_active user
               then "User activated successfully."
               else "User deactivated successfully."))],
       save user objects))).

(** [ToggleUserVerificationView.post] *)
Definition ToggleUserVerificationView_post (pk : Z) (objects : list UserRow)
  : M Z (JsonResponse * list UserRow) :=
  bind get_current_tenant (fun tenant =>
  bind (lift (get_object_or_404 pk tenant objects)) (fun user =>
  let user := toggle_is_verified user in
  ret ([("success", JBool true);
        ("is_verified", JBool (row_is_verified user));
        ("message",
         JStr (if row_is_verified user
               then "User verification enabled successfully."
               else "User verification disabled successfully."))],
       save user objects))).

(** [ToggleUserStaffView.post] *)
Definition ToggleUserStaffView_post (pk : Z) (objects : list UserRow)
  : M Z (JsonResponse * list UserRow) :=
  bind get_current_tenant (fun tenant =>
  bind (lift (get_object_or_404 pk tenant objects)) (fun user =>
  let user := toggle_is_staff user in
  ret ([("success", JBool true);
        ("is_staff", JBool (row_is_staff user));
        ("message",
         JStr (if row_is_staff user
               then "User staff status enabled successfully."
               else "User staff status disabled successfully."))],
       save user objects))).

(** The declarations of the three toggle views:
    [permission_required = 'users.change_user']. *)
Definition toggle_view : View := {|
  permission_required := AStr "users.change_user";
  permission_required_any := ANone;
  raise_exception := true;
  roles_required := ANone;
  roles_required_any := ANone;
  min_role_level := None;
  tenant_field := "tenant";
  allow_superuser := true;
  object_permission_required := None
|}.

(** A request to [ToggleUserStatusView]: the dispatch of
    [PermissionRequiredMixin] stands before the handler, whose
    [super().dispatch(...)] is the [post] above; the handler reads the
    store and never writes it.  (Django's [LoginRequiredMixin], first in
    the bases, hands an anonymous request to [handle_no_permission]
    before this dispatch is reached; the permission check refuses the
    anonymous user as well.) *)
Definition ToggleUserStatusView_dispatch (user : request_user)
    (handle_no_permission : outcome (JsonResponse * list UserRow))
    (pk : Z) (objects : list UserRow)
  : M Z (JsonResponse * list UserRow) :=
  fun s =>
    (PermissionRequiredMixin.dispatch toggle_view
       (PermissionRequiredMixin.has_permission toggle_view user)
       handle_no_permission
       (fst (ToggleUserStatusView_post pk objects s)),
     s).

(** The shape the three [post] methods share: fetch in the current
    tenant, change the row, save it, answer. *)
Definition toggle_post (change : UserRow -> UserRow)
    (answer : UserRow -> JsonResponse) (pk : Z) (objects : list UserRow)
  : M Z (JsonResponse * list UserRow) :=
  bind get_current_tenant (fun tenant =>
  bind (lift (get_object_or_404 pk tenant objects)) (fun user =>
  ret (answer (change user), save (change user) objects))).

(** The [post] methods of the three toggle views. *)
Definition toggle_posts
  : list (Z -> list UserRow -> M Z (JsonResponse * list UserRow)) :=
  [ToggleUserStatusView_post;
   ToggleUserVerificationView_post;
   ToggleUserStaffView_post].

(** What makes a change of a row a toggle of one of its flags: key and
    tenant stay, and doing it twice undoes it. *)
Definition flips (change : UserRow -> UserRow) : Prop :=
  forall x, row_pk (change x) = row_pk x
            /\ row_tenant (change x) = row_tenant x
            /\ change (change x) = x.

(** The table a request leaves behind. *)
Definition table_after (objects : list UserRow)
    (r : outcome (JsonResponse * list UserRow)) : list UserRow :=
  match r with
  | Return (_, objects') => objects'
  | Raise _ => objects
  end.

End UserViews.

(** ** More sample data *)

Module Cases.

(** A user whose role no hierarchy table of the samples lists. *)
Definition librarian : User := {|
  user_pk := 7;
  user_is_superuser := false;
  user_role := "librarian";
  user_tenant := Some 1;
  user_has_perm := fun _ _ => true
|}.

(** A tenant administrator holding no permission. *)
Definition admin : User := {|
  user_pk := 8;
  user_is_superuser := false;
  user_role := "admin";
  user_tenant := Some 1;
  user_has_perm := fun _ _ => false
|}.

(** A user of tenant 2 who created [Sample.o1], a resource of tenant 1. *)
Definition moved : User := {|
  user_pk := 2;
  user_is_superuser := false;
  user_role := "teacher";
  user_tenant := Some 2;
  user_has_perm := fun _ _ => false
|}.

(** A user table: two users of tenant 1, one of tenant 2. *)
Definition users : list UserViews.UserRow := [
  {| UserViews.row_pk := 1; UserViews.row_tenant := Some 1;
     UserViews.row_is_active := true; UserViews.row_is_verified := false;
     UserViews.row_is_staff := true |};
  {| UserViews.row_pk := 2; UserViews.row_tenant := Some 1;
     UserViews.row_is_active := false; UserViews.row_is_verified := true;
     UserViews.row_is_staff := false |};
  {| UserViews.row_pk := 3; UserViews.row_tenant := Some 2;
     UserViews.row_is_active := true; UserViews.row_is_verified := true;
     UserViews.row_is_staff := false |}
].

(** The store of a thread that serves tenant 1. *)
Definition serving_1 : TenantStore.thread_locals Z :=
  {| TenantStore.attr_tenant := Some (Some 1) |}.

End Cases.

(** ** Properties of the tenant context store *)

Section StoreProperties.

Import TenantStore.
Context {tenant : Type}.
Implicit Types (s : thread_locals tenant) (t : pyvalue tenant).

Lemma get_current_tenant_total s :
  get_current_tenant s = (Return (current s), s).
Proof. reflexivity. Qed.

Lemma current_after_set t s :
  current (snd (set_current_tenant t s)) = t.
Proof. reflexivity. Qed.

Lemma clear_tenant_state s : snd (clear_tenant s) = fresh.
Proof.
  destruct s as [[v|]]; reflexivity.
Qed.

(** C9: reading right after [set_current_tenant(t)] gives [t]; reading
    after [clear_tenant()], or in a store where nothing was ever set,
    gives [None]; none of the three operations raises, and
    [clear_tenant()] leaves a store where nothing was set as it is. *)
Theorem store_set_get_clear :
  forall t s,
    bind (set_current_tenant t) (fun _ => get_current_tenant) s
      = (Return t, snd (set_current_tenant t s))
    /\ bind clear_tenant (fun _ => get_current_tenant) s
         = (Return None, snd (clear_tenant s))
    /\ get_current_tenant (@fresh tenant) = (Return None, fresh)
    /\ clear_tenant (@fresh tenant) = (Return tt, fresh)
    /\ fst (set_current_tenant t s) = Return tt
    /\ fst (clear_tenant s) = Return tt
    /\ fst (get_current_tenant s) = Return (current s)
    /\ snd (get_current_tenant s) = s.
Proof.
  intros t s.
  repeat split; try reflexivity.
  - unfold bind.
    destruct s as [[v|]]; reflexivity.
  - destruct s as [[v|]]; reflexivity.
Qed.

(** C2: whatever the body does to the store and however it ends, after
    [with tenant_context(t): body] the store answers
    [get_current_tenant()] as it did before; the statement itself ends
    the way the body ended, and the body ran with [t] as current
    tenant. *)
Theorem tenant_context_restores :
  forall (A : Type) t (body : M tenant A) s,
    fst (get_current_tenant (snd (tenant_context t body s)))
      = fst (get_current_tenant s)
    /\ fst (tenant_context t body s)
         = fst (body (snd (set_current_tenant t s)))
    /\ current (snd (set_current_tenant t s)) = t.
Proof.
  intros A t body s.
  unfold tenant_context, bind, try_finally.
  cbn [get_current_tenant set_current_tenant fst snd].
  destruct (body {| attr_tenant := Some t |}) as [r s1] eqn:Hbody.
  cbn. repeat split.
Qed.

End StoreProperties.

(** ** Properties of the access-control mixins *)

Lemma pyval_eqb_eq (a b : pyval) : pyval_eqb a b = true <-> a = b.
Proof.
  destruct a, b; simpl; split; intros H;
    try discriminate; try reflexivity;
    try (apply Z.eqb_eq in H; congruence);
    try (injection H as ->; apply Z.eqb_refl).
Qed.

Lemma queryset_filter_In field value queryset row :
  In row (TenantAccessMixin.queryset_filter field value queryset) <->
  In row queryset /\ lookup_attr field (res_attrs row) = Some value.
Proof.
  unfold TenantAccessMixin.queryset_filter.
  rewrite filter_In.
  destruct (lookup_attr field (res_attrs row)) as [x|]; split; intros [Hin H];
    split; trivial; try discriminate.
  - apply pyval_eqb_eq in H. congruence.
  - injection H as ->. now apply pyval_eqb_eq.
Qed.

(** *** Tenant scoping of collection queries *)

(** C1, as stated, fails: in a thread whose store holds no tenant, staff
    member [p1] of tenant 1 lists the rows; resource [o1] belongs to tenant
    1, which differs from what [get_current_tenant()] answers, and is
    returned all the same. *)
Lemma get_queryset_ignores_current_tenant :
  let s := @TenantStore.fresh Z in
  let user := Authenticated Sample.p1 in
  is_superuser user = false
  /\ getattr Sample.o1 "tenant" <> Return (of_tenant (TenantStore.current s))
  /\ exists result,
       TenantAccessMixin.get_queryset default_view user Sample.rows
         = Return result
       /\ In Sample.o1 result.
Proof.
  cbv zeta. split; [reflexivity|]. split; [discriminate|].
  exists [Sample.o1]. split; [reflexivity|].
  left. reflexivity.
Qed.

(** C1, amended: for a user that is not a superuser and a view whose
    tenant field is a tenant column of the rows, whenever the collection
    query returns, it returns exactly the rows whose tenant column equals
    the tenant of the user ([user.tenant]): every row of the result is a
    row of the base queryset with that tenant, and a row whose tenant
    column holds anything else is never in the result.  The current
    tenant of the store plays no part. *)
Theorem get_queryset_scoped_by_user_tenant :
  forall (v : View) (u : User) (queryset result : list Resource),
    user_is_superuser u = false ->
    tenant_column (tenant_field v) queryset ->
    TenantAccessMixin.get_queryset v (Authenticated u) queryset
      = Return result ->
    result = filter (fun row =>
               match lookup_attr (tenant_field v) (res_attrs row) with
               | Some x => pyval_eqb x (of_tenant (user_tenant u))
               | None => false
               end) queryset
    /\ (forall R,
          In R result <->
          In R queryset
          /\ getattr R (tenant_field v) = Return (of_tenant (user_tenant u)))
    /\ (forall R,
          getattr R (tenant_field v) <> Return (of_tenant (user_tenant u)) ->
          ~ In R result).
Proof.
  intros v u queryset result Hsuper Hcolumn Hrun.
  unfold TenantAccessMixin.get_queryset in Hrun. simpl in Hrun.
  rewrite Hsuper in Hrun. simpl in Hrun. injection Hrun as <-.
  assert (Hmember : forall R,
             In R (TenantAccessMixin.queryset_filter (tenant_field v)
                     (of_tenant (user_tenant u)) queryset) <->
             In R queryset
             /\ getattr R (tenant_field v)
                = Return (of_tenant (user_tenant u))).
  { intros R. rewrite queryset_filter_In. unfold getattr.
    destruct (lookup_attr (tenant_field v) (res_attrs R)) as [x|];
      split; intros [Hin Hattr]; split; trivial; congruence. }
  split; [reflexivity|]. split; [exact Hmember|].
  intros R Hne Hin. apply Hmember in Hin. now destruct Hin.
Qed.

Lemma get_queryset_scoped_by_user_tenant_witness :
  user_is_superuser Sample.p1 = false
  /\ tenant_column (tenant_field Sample.view_x) Sample.rows
  /\ TenantAccessMixin.get_queryset Sample.view_x (Authenticated Sample.p1)
       Sample.rows = Return [Sample.o1]
  /\ ~ In Sample.o2 [Sample.o1].
Proof.
  assert (Hcolumn : tenant_column (tenant_field Sample.view_x) Sample.rows).
  { intros row [<- | [<- | []]]; right; eexists; reflexivity. }
  split; [reflexivity|]. split; [exact Hcolumn|]. split; [reflexivity|].
  destruct (get_queryset_scoped_by_user_tenant Sample.view_x Sample.p1
              Sample.rows [Sample.o1] eq_refl Hcolumn eq_refl)
    as (_ & _ & Hout).
  apply Hout. discriminate.
Defined.

(** *** The superuser escape *)

(** C3, as stated, fails: a view that sets [allow_superuser = False] scopes
    the collection of a superuser like anyone else's; [root] has no tenant
    and gets neither of the two rows. *)
Lemma superuser_queryset_restricted :
  is_superuser (Authenticated Sample.root) = true
  /\ TenantAccessMixin.get_queryset Sample.view_strict
       (Authenticated Sample.root) Sample.rows = Return []
  /\ TenantAccessMixin.get_queryset Sample.view_strict
       (Authenticated Sample.root) Sample.rows <> Return Sample.rows.
Proof.
  repeat split. discriminate.
Qed.

(** C3, amended: for a superuser the permission check, the role check, the
    combined check and the object-level check answer yes whatever the view
    declares and whatever the user's role, permissions and tenant are, and
    the object-level dispatch goes on to the handler; the tenant-scoped
    collection query and object fetch are left unrestricted when the view
    keeps [allow_superuser] true (its default). *)
Theorem superuser_bypass :
  forall (table : list (string * Z)) (v : View) (u : User),
    user_is_superuser u = true ->
    PermissionRequiredMixin.has_permission v (Authenticated u) = true
    /\ RoleRequiredMixin.has_role_permission table v (Authenticated u) = true
    /\ RoleBasedViewMixin.has_permission table v (Authenticated u) = true
    /\ (forall obj,
          ObjectPermissionMixin.has_object_permission v (Authenticated u) obj
            = true)
    /\ (forall (R : Type) obj (next : outcome R),
          ObjectPermissionMixin.dispatch v (Authenticated u)
            (Some (Return obj)) next = next)
    /\ (allow_superuser v = true ->
        (forall queryset,
           TenantAccessMixin.get_queryset v (Authenticated u) queryset
             = Return queryset)
        /\ (forall fetched,
              TenantAccessMixin.get_object v (Authenticated u) fetched
                = fetched)).
Proof.
  intros table v u Hsuper.
  assert (Hperm : PermissionRequiredMixin.has_permission v (Authenticated u) = true).
  { unfold PermissionRequiredMixin.has_permission. simpl. now rewrite Hsuper. }
  assert (Hrole : RoleRequiredMixin.has_role_permission table v (Authenticated u) = true).
  { unfold RoleRequiredMixin.has_role_permission. now rewrite Hsuper. }
  assert (Hobj : forall obj,
             ObjectPermissionMixin.has_object_permission v (Authenticated u) obj = true).
  { intros obj. unfold ObjectPermissionMixin.has_object_permission. simpl.
    now rewrite Hsuper. }
  split; [exact Hperm|]. split; [exact Hrole|].
  split; [|split; [exact Hobj|split]].
  - unfold RoleBasedViewMixin.has_permission. now rewrite Hrole, Hperm.
  - intros R obj next. unfold ObjectPermissionMixin.dispatch. simpl.
    now rewrite Hobj.
  - intros Hallow. split.
    + intros queryset. unfold TenantAccessMixin.get_queryset. simpl.
      now rewrite Hsuper, Hallow.
    + intros [obj|e]; unfold TenantAccessMixin.get_object; simpl; trivial.
      now rewrite Hsuper, Hallow.
Qed.

Lemma superuser_bypass_witness :
  user_is_superuser Sample.root = true
  /\ RoleBasedViewMixin.has_permission Sample.hierarchy Sample.view_admin_x
       (Authenticated Sample.root) = true
  /\ TenantAccessMixin.get_queryset Sample.view_admin_x
       (Authenticated Sample.root) Sample.rows = Return Sample.rows.
Proof.
  split; [reflexivity|].
  pose proof (superuser_bypass Sample.hierarchy Sample.view_admin_x
                Sample.root eq_refl) as (_ & _ & Hboth & _ & _ & Hscope).
  split; [exact Hboth|].
  apply (Hscope eq_refl).
Defined.

(** *** Object-level denial *)

Lemma classify_forbidden_not_found :
  forall msg, classify PermissionDenied <> classify (Http404 msg).
Proof. intros msg. discriminate. Qed.

(** C4, as stated, fails: [p1] of tenant 1 asks for [o1], a resource of
    tenant 1 created by [p2]; no object-level permission is declared, so
    ownership decides.  The tenant check lets the object through, the
    ownership check fails, and the request ends in [PermissionDenied]
    (forbidden), while an absent object ends in [Http404] (not found). *)
Lemma object_denial_is_not_disguised :
  let user := Authenticated Sample.p1 in
  let fetched :=
    TenantAccessMixin.get_object default_view user (Return Sample.o1) in
  is_superuser user = false
  /\ fetched = Return Sample.o1
  /\ ObjectPermissionMixin.has_object_permission default_view user Sample.o1
       = false
  /\ ObjectPermissionMixin.dispatch default_view user (Some fetched)
       (Return tt) = Raise PermissionDenied
  /\ ObjectPermissionMixin.dispatch default_view user
       (Some (Raise (Http404 "No resource found matching the query")))
       (Return tt)
       = Raise (Http404 "No resource found matching the query")
  /\ classify PermissionDenied = Forbidden
  /\ classify (Http404 "No resource found matching the query") = NotFound.
Proof.
  cbv zeta. repeat split.
Qed.

(** C4, amended: when the object-ownership check fails on the fetched
    object, the object-level dispatch ends in [PermissionDenied], which is
    classified forbidden and not as the not-found of an absent object; an
    absent object is passed on as the not-found it is, and the one denial
    reported as not-found is the tenant mismatch that
    [TenantAccessMixin.get_object] detects. *)
Theorem object_denial_is_forbidden :
  forall (R : Type) (v : View) (user : request_user) (obj : Resource)
         (next : outcome R),
    ObjectPermissionMixin.has_object_permission v user obj = false ->
    ObjectPermissionMixin.dispatch v user (Some (Return obj)) next
      = Raise PermissionDenied
    /\ classify PermissionDenied = Forbidden
    /\ (forall msg,
          ObjectPermissionMixin.dispatch v user (Some (Raise (Http404 msg))) next
            = Raise (Http404 msg)
          /\ classify (Http404 msg) = NotFound)
    /\ (forall u x,
          user = Authenticated u ->
          is_superuser user && allow_superuser v = false ->
          getattr obj (tenant_field v) = Return x ->
          x <> of_tenant (user_tenant u) ->
          exists msg,
            TenantAccessMixin.get_object v user (Return obj)
              = Raise (Http404 msg)).
Proof.
  intros R v user obj next Hdenied.
  split; [|split; [|split]].
  - unfold ObjectPermissionMixin.dispatch. simpl. now rewrite Hdenied.
  - reflexivity.
  - intros msg. split; reflexivity.
  - intros u x -> Hgate Hattr Hne.
    unfold TenantAccessMixin.get_object.
    cbn [bind_outcome]. rewrite Hgate, Hattr.
    cbn [bind_outcome tenant_of].
    destruct (pyval_eqb x (of_tenant (user_tenant u))) eqn:Heq.
    + apply pyval_eqb_eq in Heq. contradiction.
    + simpl. eexists. reflexivity.
Qed.

Lemma object_denial_is_forbidden_witness :
  ObjectPermissionMixin.has_object_permission default_view
    (Authenticated Sample.p1) Sample.o1 = false
  /\ ObjectPermissionMixin.dispatch default_view (Authenticated Sample.p1)
       (Some (Return Sample.o1)) (Return tt) = Raise PermissionDenied.
Proof.
  split; [reflexivity|].
  apply (object_denial_is_forbidden unit default_view
           (Authenticated Sample.p1) Sample.o1 (Return tt) eq_refl).
Defined.

(** *** Role and permission requirements *)

Lemma truthy_AStr (s : string) : s <> "" -> truthy (AStr s) = true.
Proof.
  intros Hs. simpl. apply negb_true_iff. now apply String.eqb_neq.
Qed.

Lemma truthy_ASeq (l : list string) : l <> [] -> truthy (ASeq l) = true.
Proof.
  destruct l; [contradiction | reflexivity].
Qed.

Lemma truthy_int_Some (m : Z) : m <> 0 -> truthy_int (Some m) = true.
Proof.
  intros Hm. simpl. apply negb_true_iff. now apply Z.eqb_neq.
Qed.

(** C5: under a requirement that declares the role [X] (a non-empty
    string, so that Python takes it as declared) the combined check denies
    an authenticated user who is no superuser and whose role is not [X],
    whatever permission requirement is declared beside it and whatever
    permissions the user holds: the permission check is not consulted. *)
Theorem role_check_precedes_permission :
  forall (table : list (string * Z)) (v : View) (u : User) (X : string),
    user_is_superuser u = false ->
    roles_required v = AStr X ->
    X <> "" ->
    user_role u <> X ->
    RoleRequiredMixin.has_role_permission table v (Authenticated u) = false
    /\ RoleBasedViewMixin.has_permission table v (Authenticated u) = false
    /\ (forall (R : Type) (login next : outcome R),
          raise_exception v = true ->
          RoleBasedViewMixin.dispatch table v (Authenticated u) login next
            = Raise PermissionDenied).
Proof.
  intros table v u X Hsuper Hrole HX Hne.
  assert (Hdeny : RoleRequiredMixin.has_role_permission table v (Authenticated u)
                  = false).
  { unfold RoleRequiredMixin.has_role_permission.
    rewrite Hsuper, Hrole, (truthy_AStr X HX).
    now apply String.eqb_neq. }
  assert (Hboth : RoleBasedViewMixin.has_permission table v (Authenticated u)
                  = false).
  { unfold RoleBasedViewMixin.has_permission. now rewrite Hdeny. }
  repeat split; trivial.
  intros R login next Hraise.
  unfold RoleBasedViewMixin.dispatch, PermissionRequiredMixin.dispatch.
  now rewrite Hboth, Hraise.
Qed.

(** The staff member [p1] holds [view_x], and the permission check alone
    would let [p1] in; the view also requires the role [admin]. *)
Lemma role_check_precedes_permission_witness :
  user_is_superuser Sample.p1 = false
  /\ roles_required Sample.view_admin_x = AStr "admin"
  /\ permission_required Sample.view_admin_x = AStr "view_x"
  /\ user_has_perm Sample.p1 "view_x" None = true
  /\ PermissionRequiredMixin.has_permission Sample.view_admin_x
       (Authenticated Sample.p1) = true
  /\ RoleBasedViewMixin.has_permission Sample.hierarchy Sample.view_admin_x
       (Authenticated Sample.p1) = false.
Proof.
  repeat (split; [reflexivity|]).
  apply (role_check_precedes_permission Sample.hierarchy Sample.view_admin_x
           Sample.p1 "admin"); [reflexivity | reflexivity | | ]; discriminate.
Defined.

(** C6: with no role list declared, the check of a minimum role level [m]
    lets an authenticated user who is no superuser in exactly when the
    level of the user's role in the table ([0] for an unlisted role) is at
    least [m].  Python reads the level [0] as "not declared" and lets
    everybody in, which agrees with the comparison whenever the user's
    level is not negative.  Hence the check is monotonic: when the
    requirement is the level of a role [B] and the user's role is at least
    as high as [B], the user is let in. *)
Theorem min_role_level_check :
  forall (table : list (string * Z)) (v : View) (u : User) (m : Z),
    user_is_superuser u = false ->
    truthy (roles_required v) = false ->
    truthy (roles_required_any v) = false ->
    min_role_level v = Some m ->
    (m <> 0 \/ 0 <= role_level table (user_role u) ->
     (RoleRequiredMixin.has_role_permission table v (Authenticated u) = true
      <-> role_level table (user_role u) >= m))
    /\ (forall B : string,
          m = role_level table B ->
          role_level table (user_role u) >= role_level table B ->
          RoleRequiredMixin.has_role_permission table v (Authenticated u)
            = true).
Proof.
  intros table v u m Hsuper Hroles Hany Hmin.
  assert (Hrun : RoleRequiredMixin.has_role_permission table v (Authenticated u)
                 = if truthy_int (Some m)
                   then Z.geb (role_level table (user_role u)) m
                   else true).
  { unfold RoleRequiredMixin.has_role_permission, role_level.
    rewrite Hsuper, Hroles, Hany, Hmin. reflexivity. }
  split.
  - intros Hm. rewrite Hrun.
    destruct (Z.eq_dec m 0) as [-> | Hnz].
    + simpl. destruct Hm as [Hm | Hm]; [contradiction|].
      split; [lia | reflexivity].
    + rewrite (truthy_int_Some m Hnz).
      rewrite Z.geb_le. lia.
  - intros B -> Hge. rewrite Hrun.
    destruct (truthy_int (Some (role_level table B))); [|reflexivity].
    apply Z.geb_le. lia.
Qed.

Lemma min_role_level_check_witness :
  user_is_superuser Sample.p1 = false
  /\ min_role_level Sample.view_level_40 = Some 40
  /\ role_level Sample.hierarchy (user_role Sample.p1) = 60
  /\ role_level Sample.hierarchy "teacher" = 40
  /\ RoleRequiredMixin.has_role_permission Sample.hierarchy
       Sample.view_level_40 (Authenticated Sample.p1) = true.
Proof.
  repeat (split; [reflexivity|]).
  destruct (min_role_level_check Sample.hierarchy Sample.view_level_40
              Sample.p1 40 eq_refl eq_refl eq_refl eq_refl) as [Hiff Hmono].
  assert (Hsame : RoleRequiredMixin.has_role_permission Sample.hierarchy
                    Sample.view_level_40 (Authenticated Sample.p1) = true
                  <-> role_level Sample.hierarchy (user_role Sample.p1) >= 40).
  { apply Hiff. left. discriminate. }
  apply Hsame. discriminate.
Defined.

(** The two ways the permission check of a user who is no superuser can
    go: through the declared [permission_required], or past it. *)
Lemma has_permission_declared (v : View) (u : User) :
  user_is_superuser u = false ->
  truthy (permission_required v) = true ->
  PermissionRequiredMixin.has_permission v (Authenticated u)
    = match permission_required v with
      | AStr s => user_has_perm u s None
      | ASeq l => forallb (fun perm => user_has_perm u perm None) l
      | ANone => true
      end.
Proof.
  intros Hsuper Hdeclared.
  unfold PermissionRequiredMixin.has_permission. simpl.
  rewrite Hsuper, Hdeclared.
  destruct (permission_required v); [discriminate | reflexivity | reflexivity].
Qed.

Lemma has_permission_undeclared (v : View) (u : User) :
  user_is_superuser u = false ->
  truthy (permission_required v) = false ->
  PermissionRequiredMixin.has_permission v (Authenticated u)
    = if truthy (permission_required_any v)
      then existsb (fun perm => user_has_perm u perm None)
                   (iter (permission_required_any v))
      else true.
Proof.
  intros Hsuper Habsent.
  unfold PermissionRequiredMixin.has_permission. simpl.
  now rewrite Hsuper, Habsent.
Qed.

(** C7: for an authenticated user who is no superuser, a declared single
    permission grants exactly when the user holds it; a declared non-empty
    list grants exactly when the user holds every listed permission; as
    long as [permission_required] is declared the answer does not depend
    on [permission_required_any]; and when [permission_required] is absent
    or empty, a non-empty [permission_required_any] grants exactly when
    the user holds one of the listed permissions. *)
Theorem permission_check_forms :
  forall (v : View) (u : User),
    user_is_superuser u = false ->
    let granted := PermissionRequiredMixin.has_permission v (Authenticated u) in
    (forall s,
       permission_required v = AStr s -> s <> "" ->
       (granted = true <-> user_has_perm u s None = true))
    /\ (forall l,
          permission_required v = ASeq l -> l <> [] ->
          (granted = true <->
           forall perm, In perm l -> user_has_perm u perm None = true))
    /\ (truthy (permission_required v) = true ->
        forall a,
          PermissionRequiredMixin.has_permission
            (with_permission_required_any v a) (Authenticated u) = granted)
    /\ (forall l,
          truthy (permission_required v) = false ->
          permission_required_any v = ASeq l -> l <> [] ->
          (granted = true <->
           exists perm, In perm l /\ user_has_perm u perm None = true)).
Proof.
  intros v u Hsuper granted. subst granted.
  split; [|split; [|split]].
  - intros s Hreq Hs.
    rewrite (has_permission_declared v u Hsuper)
      by (rewrite Hreq; now apply truthy_AStr).
    rewrite Hreq. reflexivity.
  - intros l Hreq Hl.
    rewrite (has_permission_declared v u Hsuper)
      by (rewrite Hreq; now apply truthy_ASeq).
    rewrite Hreq. apply forallb_forall.
  - intros Hdeclared a.
    rewrite (has_permission_declared v u Hsuper Hdeclared).
    rewrite (has_permission_declared (with_permission_required_any v a) u
               Hsuper Hdeclared).
    reflexivity.
  - intros l Habsent Hany Hl.
    rewrite (has_permission_undeclared v u Hsuper Habsent).
    rewrite Hany, (truthy_ASeq l Hl). simpl.
    apply existsb_exists.
Qed.

Lemma permission_check_forms_witness :
  user_is_superuser Sample.p1 = false
  /\ permission_required Sample.view_x = AStr "view_x"
  /\ user_has_perm Sample.p1 "view_x" None = true
  /\ PermissionRequiredMixin.has_permission Sample.view_x
       (Authenticated Sample.p1) = true
  /\ PermissionRequiredMixin.has_permission
       (with_permission_required_any Sample.view_x (ASeq ["delete_x"]))
       (Authenticated Sample.p1) = true.
Proof.
  do 3 (split; [reflexivity|]).
  destruct (permission_check_forms Sample.view_x Sample.p1 eq_refl)
    as (Hsingle & _ & Hignored & _).
  assert (Hgranted : PermissionRequiredMixin.has_permission Sample.view_x
                       (Authenticated Sample.p1) = true).
  { apply (Hsingle "view_x" eq_refl); [discriminate | reflexivity]. }
  split; [exact Hgranted|].
  rewrite (Hignored eq_refl (ASeq ["delete_x"])). exact Hgranted.
Defined.

(** C8: a view that declares none of [permission_required],
    [permission_required_any], [roles_required], [roles_required_any] and
    [min_role_level] lets every authenticated user in: the permission
    check, the role check and the combined check all answer yes. *)
Theorem no_requirement_allows :
  forall (table : list (string * Z)) (v : View) (u : User),
    permission_required v = ANone ->
    permission_required_any v = ANone ->
    roles_required v = ANone ->
    roles_required_any v = ANone ->
    min_role_level v = None ->
    PermissionRequiredMixin.has_permission v (Authenticated u) = true
    /\ RoleRequiredMixin.has_role_permission table v (Authenticated u) = true
    /\ RoleBasedViewMixin.has_permission table v (Authenticated u) = true.
Proof.
  intros table v u Hperm Hany Hroles Hroles_any Hmin.
  assert (H1 : PermissionRequiredMixin.has_permission v (Authenticated u) = true).
  { unfold PermissionRequiredMixin.has_permission. simpl.
    rewrite Hperm, Hany. simpl. now destruct (user_is_superuser u). }
  assert (H2 : RoleRequiredMixin.has_role_permission table v (Authenticated u)
               = true).
  { unfold RoleRequiredMixin.has_role_permission.
    rewrite Hroles, Hroles_any, Hmin. simpl. now destruct (user_is_superuser u). }
  repeat split; trivial.
  unfold RoleBasedViewMixin.has_permission. now rewrite H2, H1.
Qed.

Lemma no_requirement_allows_witness :
  PermissionRequiredMixin.has_permission default_view
    (Authenticated Sample.p2) = true
  /\ RoleRequiredMixin.has_role_permission Sample.hierarchy default_view
       (Authenticated Sample.p2) = true
  /\ RoleBasedViewMixin.has_permission Sample.hierarchy default_view
       (Authenticated Sample.p2) = true.
Proof.
  apply (no_requirement_allows Sample.hierarchy default_view Sample.p2);
    reflexivity.
Defined.

(** C10: with [permission_required] absent and [permission_required_any]
    the empty list, the permission check lets an authenticated user who is
    no superuser in, exactly as a view without any declared permission
    does; the disjunction over the empty list, which is false, is never
    formed. *)
Theorem empty_permission_any_allows :
  forall (v : View) (u : User),
    user_is_superuser u = false ->
    permission_required v = ANone ->
    permission_required_any v = ASeq [] ->
    PermissionRequiredMixin.has_permission v (Authenticated u) = true
    /\ PermissionRequiredMixin.has_permission v (Authenticated u)
       = PermissionRequiredMixin.has_permission
           (with_permission_required_any v ANone) (Authenticated u)
    /\ existsb (fun perm => has_perm (Authenticated u) perm None)
         (iter (permission_required_any v)) = false.
Proof.
  intros v u Hsuper Hperm Hany.
  unfold PermissionRequiredMixin.has_permission. simpl.
  rewrite Hsuper, Hperm, Hany. simpl. repeat split.
Qed.

Lemma empty_permission_any_allows_witness :
  user_is_superuser Sample.p2 = false
  /\ permission_required_any Sample.view_any_empty = ASeq []
  /\ PermissionRequiredMixin.has_permission Sample.view_any_empty
       (Authenticated Sample.p2) = true.
Proof.
  repeat (split; [reflexivity|]).
  apply (empty_permission_any_allows Sample.view_any_empty Sample.p2);
    reflexivity.
Defined.

(** ** Further properties of the mixins *)

(** *** Requests without a login *)

(** X1: an anonymous request is refused by the permission check, the
    role check and the combined check whatever the view declares -- also
    by a view that declares nothing -- and each [dispatch] then raises
    [PermissionDenied] or, with [raise_exception] off, hands over to
    [handle_no_permission]; the handler is not reached. *)
Theorem anonymous_is_refused :
  forall (table : list (string * Z)) (v : View) (R : Type)
         (login next : outcome R),
    let refusal := if raise_exception v then Raise PermissionDenied else login in
    PermissionRequiredMixin.has_permission v AnonymousUser = false
    /\ RoleRequiredMixin.has_role_permission table v AnonymousUser = false
    /\ RoleBasedViewMixin.has_permission table v AnonymousUser = false
    /\ PermissionRequiredMixin.dispatch v
         (PermissionRequiredMixin.has_permission v AnonymousUser) login next
       = refusal
    /\ RoleRequiredMixin.dispatch table v AnonymousUser login next = refusal
    /\ RoleBasedViewMixin.dispatch table v AnonymousUser login next = refusal.
Proof.
  intros table v R login next refusal. subst refusal.
  repeat split.
Qed.

(** *** The combined mixin *)

(** X2: the combined check is the conjunction of the role check and the
    permission check, and the combined [dispatch] reaches the handler
    exactly when both pass; otherwise it refuses. *)
Theorem role_based_dispatch_is_conjunction :
  forall (table : list (string * Z)) (v : View) (user : request_user)
         (R : Type) (login next : outcome R),
    let both :=
      RoleRequiredMixin.has_role_permission table v user
      && PermissionRequiredMixin.has_permission v user in
    RoleBasedViewMixin.has_permission table v user = both
    /\ RoleBasedViewMixin.dispatch table v user login next
       = if both then next
         else if raise_exception v then Raise PermissionDenied else login.
Proof.
  intros table v user R login next both. subst both.
  unfold RoleBasedViewMixin.dispatch, RoleBasedViewMixin.has_permission,
    PermissionRequiredMixin.dispatch, RoleRequiredMixin.dispatch.
  destruct (RoleRequiredMixin.has_role_permission table v user);
    destruct (PermissionRequiredMixin.has_permission v user);
    split; reflexivity.
Qed.

(** *** Role lists *)

Lemma existsb_eqb_In (x : string) (l : list string) :
  existsb (String.eqb x) l = true <-> In x l.
Proof.
  rewrite existsb_exists. split.
  - intros (y & Hin & Heq). apply String.eqb_eq in Heq. now subst.
  - intros Hin. exists x. split; [exact Hin | apply String.eqb_refl].
Qed.

(** X3: a declared [roles_required] decides alone: the answer depends
    neither on [roles_required_any], nor on [min_role_level], nor on the
    hierarchy table; and a non-empty list of roles lets a user who is no
    superuser in exactly when the user's role is in the list. *)
Theorem roles_required_decides_alone :
  forall (table : list (string * Z)) (v : View) (u : User),
    truthy (roles_required v) = true ->
    (forall table' a level,
       RoleRequiredMixin.has_role_permission table'
         (with_role_fallbacks v a level) (Authenticated u)
       = RoleRequiredMixin.has_role_permission table v (Authenticated u))
    /\ (forall l,
          user_is_superuser u = false ->
          roles_required v = ASeq l ->
          (RoleRequiredMixin.has_role_permission table v (Authenticated u) = true
           <-> In (user_role u) l)).
Proof.
  intros table v u Hdeclared. split.
  - intros table' a level.
    unfold RoleRequiredMixin.has_role_permission. simpl.
    rewrite Hdeclared.
    destruct (user_is_superuser u); [reflexivity|].
    destruct (roles_required v); [discriminate | reflexivity | reflexivity].
  - intros l Hsuper Hlist.
    unfold RoleRequiredMixin.has_role_permission.
    rewrite Hsuper, Hdeclared, Hlist. simpl.
    apply existsb_eqb_In.
Qed.

Lemma roles_required_decides_alone_witness :
  RoleRequiredMixin.has_role_permission Sample.hierarchy
    (with_role_fallbacks Sample.view_admin_x (ASeq ["staff"]) (Some 10))
    (Authenticated Sample.p1)
  = RoleRequiredMixin.has_role_permission [] Sample.view_admin_x
      (Authenticated Sample.p1).
Proof.
  apply (roles_required_decides_alone [] Sample.view_admin_x Sample.p1 eq_refl).
Defined.

(** X4: with [roles_required] absent or empty, a non-empty list in
    [roles_required_any] lets a user who is no superuser in exactly when
    the user's role is in it; [min_role_level] and the hierarchy table
    are not consulted. *)
Theorem roles_required_any_list :
  forall (table : list (string * Z)) (v : View) (u : User) (l : list string),
    user_is_superuser u = false ->
    truthy (roles_required v) = false ->
    roles_required_any v = ASeq l ->
    l <> [] ->
    (RoleRequiredMixin.has_role_permission table v (Authenticated u) = true
     <-> In (user_role u) l)
    /\ (forall table' level,
          RoleRequiredMixin.has_role_permission table'
            (with_role_fallbacks v (ASeq l) level) (Authenticated u)
          = RoleRequiredMixin.has_role_permission table v (Authenticated u)).
Proof.
  intros table v u l Hsuper Habsent Hany Hl.
  assert (Hrun : forall table' w,
             roles_required w = roles_required v ->
             roles_required_any w = ASeq l ->
             RoleRequiredMixin.has_role_permission table' w (Authenticated u)
             = existsb (String.eqb (user_role u)) l).
  { intros table' w Hsame Hw.
    unfold RoleRequiredMixin.has_role_permission.
    rewrite Hsuper, Hsame, Habsent, Hw, (truthy_ASeq l Hl). reflexivity. }
  split.
  - rewrite (Hrun table v eq_refl Hany). apply existsb_eqb_In.
  - intros table' level.
    rewrite (Hrun table v eq_refl Hany).
    now apply Hrun.
Qed.

Lemma roles_required_any_list_witness :
  RoleRequiredMixin.has_role_permission Sample.hierarchy
    (with_role_fallbacks default_view (ASeq ["staff"; "admin"]) (Some 100))
    (Authenticated Sample.p1) = true.
Proof.
  assert (Hlist : ["staff"; "admin"] <> @nil string) by discriminate.
  destruct (roles_required_any_list Sample.hierarchy
              (with_role_fallbacks default_view (ASeq ["staff"; "admin"])
                 (Some 100))
              Sample.p1 ["staff"; "admin"] eq_refl eq_refl eq_refl Hlist)
    as [Hiff _].
  apply Hiff. left. reflexivity.
Defined.

(** *** The hierarchy table *)

Lemma dict_get_missing (d : list (string * Z)) (key : string) (default : Z) :
  ~ In key (dict_keys d) -> dict_get d key default = default.
Proof.
  induction d as [|[k x] rest IH]; simpl; intros Hmissing; [reflexivity|].
  destruct (String.eqb_spec k key) as [-> | Hne].
  - exfalso. apply Hmissing. now left.
  - apply IH. intros Hin. apply Hmissing. now right.
Qed.

(** X5: a role the hierarchy table does not list counts as level [0]:
    under a minimum role level [m], and no role list, a user with such a
    role who is no superuser is let in exactly when [m <= 0]; every
    positive minimum refuses the user. *)
Theorem unlisted_role_has_level_zero :
  forall (table : list (string * Z)) (v : View) (u : User) (m : Z),
    user_is_superuser u = false ->
    truthy (roles_required v) = false ->
    truthy (roles_required_any v) = false ->
    min_role_level v = Some m ->
    ~ In (user_role u) (dict_keys table) ->
    (RoleRequiredMixin.has_role_permission table v (Authenticated u) = true
     <-> m <= 0).
Proof.
  intros table v u m Hsuper Hroles Hany Hmin Hmissing.
  unfold RoleRequiredMixin.has_role_permission.
  rewrite Hsuper, Hroles, Hany, Hmin, (dict_get_missing _ _ _ Hmissing).
  simpl. destruct (Z.eqb_spec m 0) as [-> | Hnz]; simpl.
  - split; [lia | reflexivity].
  - rewrite Z.geb_le. reflexivity.
Qed.

Lemma unlisted_role_has_level_zero_witness :
  RoleRequiredMixin.has_role_permission Sample.hierarchy Sample.view_level_40
    (Authenticated Cases.librarian) = false.
Proof.
  apply not_true_is_false. intros Hgranted.
  assert (Hmissing : ~ In (user_role Cases.librarian)
                       (dict_keys Sample.hierarchy)).
  { simpl. intros H. repeat (destruct H as [H | H]; [discriminate|]). exact H. }
  apply (unlisted_role_has_level_zero Sample.hierarchy Sample.view_level_40
           Cases.librarian 40 eq_refl eq_refl eq_refl eq_refl Hmissing)
    in Hgranted.
  lia.
Defined.

(** *** A string where a list is expected *)

Lemma substring_skip (pre s : string) (n : nat) :
  substring (String.length pre) n (pre ++ s) = substring 0 n s.
Proof.
  induction pre as [|c pre IH]; simpl; [reflexivity | exact IH].
Qed.

Lemma substring_prefix (s rest : string) :
  substring 0 (String.length s) (s ++ rest) = s.
Proof.
  induction s as [|c s IH]; simpl.
  - now destruct rest.
  - now rewrite IH.
Qed.

Lemma index_occurrence (x s : string) :
  String.index 0 x s <> None <->
  exists m, substring m (String.length x) s = x.
Proof.
  split.
  - destruct (String.index 0 x s) as [m|] eqn:Hindex; [|contradiction].
    intros _. exists m. now apply (index_correct1 0).
  - intros [m Hsub] Hnone.
    destruct x as [|c x].
    + apply index_correct4 in Hnone. lia.
    + apply (index_correct3 0 m) in Hnone; [contradiction | discriminate | lia].
Qed.

(** X6: a string given as [roles_required_any] is searched, not
    compared: with [roles_required] absent or empty, a user who is no
    superuser is let in exactly when the user's role occurs somewhere
    inside that string; so every role that is a part of the string
    passes, whatever stands before and after it. *)
Theorem roles_required_any_string_is_searched :
  forall (table : list (string * Z)) (v : View) (u : User) (s : string),
    user_is_superuser u = false ->
    truthy (roles_required v) = false ->
    roles_required_any v = AStr s ->
    s <> "" ->
    (RoleRequiredMixin.has_role_permission table v (Authenticated u) = true
     <-> exists m, substring m (String.length (user_role u)) s = user_role u)
    /\ (forall before after,
          s = before ++ user_role u ++ after ->
          RoleRequiredMixin.has_role_permission table v (Authenticated u)
            = true).
Proof.
  intros table v u s Hsuper Habsent Hany Hs.
  assert (Hrun : RoleRequiredMixin.has_role_permission table v (Authenticated u)
                 = match String.index 0 (user_role u) s with
                   | Some _ => true
                   | None => false
                   end).
  { unfold RoleRequiredMixin.has_role_permission.
    rewrite Hsuper, Habsent, Hany, (truthy_AStr s Hs). reflexivity. }
  assert (Hiff : RoleRequiredMixin.has_role_permission table v (Authenticated u)
                 = true
                 <-> exists m,
                     substring m (String.length (user_role u)) s = user_role u).
  { rewrite Hrun, <- index_occurrence.
    destruct (String.index 0 (user_role u) s); split; intros H;
      try discriminate; try reflexivity; try congruence. }
  split; [exact Hiff|].
  intros before after ->. apply Hiff.
  exists (String.length before).
  rewrite substring_skip. apply substring_prefix.
Qed.

Lemma roles_required_any_string_is_searched_witness :
  RoleRequiredMixin.has_role_permission Sample.hierarchy
    (with_role_fallbacks default_view (AStr "super_admin") None)
    (Authenticated Cases.admin) = true.
Proof.
  pose (u := Cases.admin).
  assert (Hs : "super_admin" <> "") by discriminate.
  destruct (roles_required_any_string_is_searched Sample.hierarchy
              (with_role_fallbacks default_view (AStr "super_admin") None)
              u "super_admin" eq_refl eq_refl eq_refl Hs) as [_ Hpart].
  apply (Hpart "super_" ""). reflexivity.
Defined.

Lemma chars_length (s p : string) : In p (chars s) -> String.length p = 1%nat.
Proof.
  induction s as [|c s IH]; simpl; [contradiction|].
  intros [<- | Hin]; [reflexivity | now apply IH].
Qed.

(** X7: a string given as [permission_required_any] is read character
    by character: with [permission_required] absent or empty, a user who
    is no superuser is let in exactly when the user holds a permission
    named by one of its characters; a user who holds no permission with
    a one-character name is refused, even when holding the permission
    the string spells. *)
Theorem permission_required_any_string_is_iterated :
  forall (v : View) (u : User) (s : string),
    user_is_superuser u = false ->
    truthy (permission_required v) = false ->
    permission_required_any v = AStr s ->
    s <> "" ->
    (PermissionRequiredMixin.has_permission v (Authenticated u) = true
     <-> exists c, In c (chars s) /\ user_has_perm u c None = true)
    /\ ((forall p, String.length p = 1%nat -> user_has_perm u p None = false) ->
        PermissionRequiredMixin.has_permission v (Authenticated u) = false).
Proof.
  intros v u s Hsuper Habsent Hany Hs.
  rewrite (has_permission_undeclared v u Hsuper Habsent).
  rewrite Hany, (truthy_AStr s Hs). simpl.
  split; [apply existsb_exists|].
  intros Hnone.
  apply not_true_is_false. intros Hgranted.
  apply existsb_exists in Hgranted. destruct Hgranted as (c & Hin & Hholds).
  rewrite (Hnone c (chars_length s c Hin)) in Hholds. discriminate.
Qed.

Lemma permission_required_any_string_is_iterated_witness :
  user_has_perm Sample.p1 "view_x" None = true
  /\ PermissionRequiredMixin.has_permission
       (with_permission_required_any default_view (AStr "view_x"))
       (Authenticated Sample.p1) = false.
Proof.
  split; [reflexivity|].
  assert (Hs : "view_x" <> "") by discriminate.
  destruct (permission_required_any_string_is_iterated
              (with_permission_required_any default_view (AStr "view_x"))
              Sample.p1 "view_x" eq_refl eq_refl eq_refl Hs) as [_ Hrefused].
  apply Hrefused.
  intros p Hlen. simpl.
  destruct (String.eqb_spec p "view_x") as [-> | _]; [discriminate | reflexivity].
Defined.

(** *** Growing permissions, shrinking requirements *)

(** X8: the permission check is monotonic in what the user holds: when a
    second user who is no less a superuser holds every permission the
    first holds, every view that lets the first in lets the second in. *)
Theorem has_permission_monotone :
  forall (v : View) (u u' : User),
    (user_is_superuser u = true -> user_is_superuser u' = true) ->
    (forall perm, user_has_perm u perm None = true ->
                  user_has_perm u' perm None = true) ->
    PermissionRequiredMixin.has_permission v (Authenticated u) = true ->
    PermissionRequiredMixin.has_permission v (Authenticated u') = true.
Proof.
  intros v u u' Hsuper Hholds.
  destruct (user_is_superuser u') eqn:Hsuper'.
  { intros _. unfold PermissionRequiredMixin.has_permission. simpl.
    now rewrite Hsuper'. }
  assert (Hsuper0 : user_is_superuser u = false).
  { destruct (user_is_superuser u); [|reflexivity].
    specialize (Hsuper eq_refl). discriminate. }
  destruct (truthy (permission_required v)) eqn:Hdeclared.
  - rewrite !has_permission_declared by assumption.
    destruct (permission_required v) as [|s|l]; [trivial | apply Hholds |].
    rewrite !forallb_forall. intros Hall perm Hin. apply Hholds, Hall, Hin.
  - rewrite !has_permission_undeclared by assumption.
    destruct (truthy (permission_required_any v)); [|trivial].
    rewrite !existsb_exists. intros (perm & Hin & Hperm).
    exists perm. split; [exact Hin | now apply Hholds].
Qed.

Lemma has_permission_monotone_witness :
  PermissionRequiredMixin.has_permission Sample.view_x
    (Authenticated Cases.librarian) = true.
Proof.
  apply (has_permission_monotone Sample.view_x Sample.p1 Cases.librarian).
  - discriminate.
  - reflexivity.
  - reflexivity.
Defined.

(** X9: requiring fewer permissions never shuts anybody out, as long as
    the list stays non-empty: a user who is no superuser and passes a
    view requiring the list [l] passes the same view requiring any
    non-empty list [l'] drawn from [l]. *)
Theorem permission_required_sublist :
  forall (v : View) (u : User) (l l' : list string),
    user_is_superuser u = false ->
    l' <> [] ->
    incl l' l ->
    PermissionRequiredMixin.has_permission
      (with_permission_required v (ASeq l)) (Authenticated u) = true ->
    PermissionRequiredMixin.has_permission
      (with_permission_required v (ASeq l')) (Authenticated u) = true.
Proof.
  intros v u l l' Hsuper Hl' Hincl.
  assert (Hl : l <> []).
  { destruct l' as [|p rest]; [contradiction|].
    intros ->. apply (Hincl p). now left. }
  rewrite !has_permission_declared
    by (trivial; simpl permission_required; now apply truthy_ASeq).
  simpl permission_required.
  rewrite !forallb_forall. intros Hall perm Hin. apply Hall, Hincl, Hin.
Qed.

Lemma permission_required_sublist_witness :
  PermissionRequiredMixin.has_permission
    (with_permission_required default_view (ASeq ["b"]))
    (Authenticated Cases.librarian) = true.
Proof.
  apply (permission_required_sublist default_view Cases.librarian
           ["a"; "b"; "c"] ["b"]).
  - reflexivity.
  - discriminate.
  - intros p [<- | []]. right. left. reflexivity.
  - reflexivity.
Defined.

(** *** Tenant scoping of objects and collections *)

(** X10: the object fetch and the collection query of
    [TenantAccessMixin] agree on a tenant column: for a view whose tenant
    field is a tenant column of the object, whenever the collection query
    over that object alone returns, it keeps the object exactly when the
    fetch hands the object out. *)
Theorem get_object_agrees_with_get_queryset :
  forall (v : View) (user : request_user) (obj : Resource)
         (result : list Resource),
    tenant_column (tenant_field v) [obj] ->
    TenantAccessMixin.get_queryset v user [obj] = Return result ->
    (TenantAccessMixin.get_object v user (Return obj) = Return obj
     <-> result = [obj]).
Proof.
  intros v user obj result Hcolumn.
  assert (Hattr : exists x, lookup_attr (tenant_field v) (res_attrs obj) = Some x).
  { destruct (Hcolumn obj (or_introl eq_refl)) as [H | [pk H]]; eauto. }
  destruct Hattr as [x Hattr].
  unfold TenantAccessMixin.get_object, TenantAccessMixin.get_queryset,
    TenantAccessMixin.queryset_filter, getattr.
  cbn [bind_outcome filter]. rewrite Hattr.
  destruct (is_superuser user && allow_superuser v).
  { intros [= <-]. tauto. }
  destruct user as [|u]; cbn [tenant_of bind_outcome]; [discriminate|].
  intros [= <-].
  destruct (pyval_eqb x (of_tenant (user_tenant u))); cbn [negb];
    split; intros H; try reflexivity; discriminate.
Qed.

Lemma get_object_agrees_with_get_queryset_witness :
  tenant_column (tenant_field Sample.view_x) [Sample.o1]
  /\ TenantAccessMixin.get_queryset Sample.view_x (Authenticated Sample.p1)
       [Sample.o1] = Return [Sample.o1]
  /\ TenantAccessMixin.get_object Sample.view_x (Authenticated Sample.p1)
       (Return Sample.o1) = Return Sample.o1.
Proof.
  assert (Hcolumn : tenant_column (tenant_field Sample.view_x) [Sample.o1]).
  { intros row [<- | []]. right. eexists. reflexivity. }
  split; [exact Hcolumn|]. split; [reflexivity|].
  apply (get_object_agrees_with_get_queryset Sample.view_x
           (Authenticated Sample.p1) Sample.o1 [Sample.o1] Hcolumn eq_refl).
  reflexivity.
Defined.



(** X12: [TenantAccessMixin] on its own never serves an anonymous
    request: the collection query fails on the missing [tenant] attribute
    of the anonymous user, and so does the fetch of any found object;
    a failed fetch is passed on as it is for every user. *)
Theorem tenant_access_needs_a_login :
  forall (v : View) (queryset : list Resource) (obj : Resource),
    TenantAccessMixin.get_queryset v AnonymousUser queryset
      = Raise (AttributeError "tenant")
    /\ (exists name,
          TenantAccessMixin.get_object v AnonymousUser (Return obj)
            = Raise (AttributeError name))
    /\ (forall user e,
          TenantAccessMixin.get_object v user (Raise e) = Raise e).
Proof.
  intros v queryset obj. repeat split.
  unfold TenantAccessMixin.get_object, getattr. simpl.
  destruct (lookup_attr (tenant_field v) (res_attrs obj)); simpl;
    eexists; reflexivity.
Qed.

(** *** Object-level access *)

(** X13: in a detail view that combines the tenant check with the object
    check, the tenant check comes first: for a user the superuser bypass
    does not cover, an object of another tenant ends in [Http404]
    whatever the object check would say -- also for the object's owner --
    and an object of the user's tenant ends in the handler or in
    [PermissionDenied], as the object check decides. *)
Theorem tenant_check_precedes_object_check :
  forall (R : Type) (v : View) (u : User) (obj : Resource) (x : pyval)
         (next : outcome R),
    user_is_superuser u && allow_superuser v = false ->
    getattr obj (tenant_field v) = Return x ->
    let fetched :=
      TenantAccessMixin.get_object v (Authenticated u) (Return obj) in
    (x <> of_tenant (user_tenant u) ->
     exists msg,
       ObjectPermissionMixin.dispatch v (Authenticated u) (Some fetched) next
         = Raise (Http404 msg))
    /\ (x = of_tenant (user_tenant u) ->
        ObjectPermissionMixin.dispatch v (Authenticated u) (Some fetched) next
          = if ObjectPermissionMixin.has_object_permission v
                 (Authenticated u) obj
            then next else Raise PermissionDenied).
Proof.
  intros R v u obj x next Hgate Hattr fetched. subst fetched.
  unfold TenantAccessMixin.get_object, ObjectPermissionMixin.dispatch.
  cbn [bind_outcome is_superuser tenant_of].
  rewrite Hgate, Hattr. cbn [bind_outcome].
  split.
  - intros Hne.
    destruct (pyval_eqb x (of_tenant (user_tenant u))) eqn:Heq.
    + apply pyval_eqb_eq in Heq. contradiction.
    + cbn. eexists. reflexivity.
  - intros ->.
    rewrite (proj2 (pyval_eqb_eq _ _) eq_refl). cbn [negb bind_outcome].
    now destruct (ObjectPermissionMixin.has_object_permission v
                    (Authenticated u) obj).
Qed.

(** [Cases.moved] created [Sample.o1] and would pass the ownership check,
    but now belongs to tenant 2. *)
Lemma tenant_check_precedes_object_check_witness :
  ObjectPermissionMixin.has_object_permission default_view
    (Authenticated Cases.moved) Sample.o1 = true
  /\ exists msg,
       ObjectPermissionMixin.dispatch default_view (Authenticated Cases.moved)
         (Some (TenantAccessMixin.get_object default_view
                  (Authenticated Cases.moved) (Return Sample.o1)))
         (Return tt)
       = Raise (Http404 msg).
Proof.
  split; [reflexivity|].
  destruct (tenant_check_precedes_object_check unit default_view Cases.moved
              Sample.o1 (PTenant 1) (Return tt) eq_refl eq_refl)
    as [Hother _].
  apply Hother. discriminate.
Defined.

Lemma eq_user_iff (x : pyval) (u : User) :
  eq_user x (Authenticated u) = true <-> x = PUser (user_pk u).
Proof.
  destruct x as [| t | pk]; simpl; split; intros H; try discriminate.
  - apply Z.eqb_eq in H. now subst.
  - injection H as ->. apply Z.eqb_refl.
Qed.

(** X14: with no object permission declared, the object check is
    ownership: a user who is no superuser passes exactly when the
    object's [user] or its [created_by] is that user (a missing
    attribute counts as [None]); an anonymous request never passes.
    With an object permission declared, only that permission is asked,
    and the owner has no privilege. *)
Theorem object_check_is_ownership_by_default :
  forall (v : View) (u : User) (obj : Resource),
    user_is_superuser u = false ->
    (truthy_str (object_permission_required v) = false ->
     (ObjectPermissionMixin.has_object_permission v (Authenticated u) obj = true
      <-> lookup_attr "user" (res_attrs obj) = Some (PUser (user_pk u))
          \/ lookup_attr "created_by" (res_attrs obj) = Some (PUser (user_pk u)))
     /\ ObjectPermissionMixin.has_object_permission v AnonymousUser obj = false)
    /\ (forall perm,
          object_permission_required v = Some perm -> perm <> "" ->
          ObjectPermissionMixin.has_object_permission v (Authenticated u) obj
            = user_has_perm u perm (Some obj)).
Proof.
  intros v u obj Hsuper. split.
  - intros Hundeclared.
    unfold ObjectPermissionMixin.has_object_permission, getattr_default.
    cbn [is_superuser]. rewrite Hsuper, Hundeclared. split.
    + rewrite orb_true_iff, !eq_user_iff.
      destruct (lookup_attr "user" (res_attrs obj)) as [a|];
        destruct (lookup_attr "created_by" (res_attrs obj)) as [b|];
        split; intros [H | H]; try discriminate;
        try (left; congruence); try (right; congruence).
    + destruct (lookup_attr "user" (res_attrs obj)) as [[]|];
        destruct (lookup_attr "created_by" (res_attrs obj)) as [[]|];
        reflexivity.
  - intros perm Hperm Hnonempty.
    unfold ObjectPermissionMixin.has_object_permission.
    cbn [is_superuser]. rewrite Hsuper, Hperm. cbn [truthy_str].
    apply String.eqb_neq in Hnonempty. now rewrite Hnonempty.
Qed.

Lemma object_check_is_ownership_by_default_witness :
  ObjectPermissionMixin.has_object_permission default_view
    (Authenticated Sample.p2) Sample.o1 = true
  /\ ObjectPermissionMixin.has_object_permission default_view
       (Authenticated Sample.p1) Sample.o1 <> true.
Proof.
  destruct (object_check_is_ownership_by_default default_view Sample.p2
              Sample.o1 eq_refl) as [Howner _].
  destruct (object_check_is_ownership_by_default default_view Sample.p1
              Sample.o1 eq_refl) as [Hother _].
  split.
  - apply (Howner eq_refl). right. reflexivity.
  - intros Hgranted. apply (Hother eq_refl) in Hgranted.
    destruct Hgranted as [H | H]; discriminate.
Defined.

(** ** Further properties of the tenant store *)

Section StoreComposition.

Import TenantStore.
Context {tenant : Type}.
Implicit Types (s : thread_locals tenant) (t : pyvalue tenant).

(** X15: what the body writes to the store does not survive the [with]
    block: on exit the attribute is bound to the tenant that was current
    on entry, whether the body set other tenants, cleared the store or
    raised.  On a store where nothing was set the attribute is left bound
    to [None], and a [clear_tenant()] brings the fresh store back. *)
Theorem tenant_context_discards_body_writes :
  forall (A : Type) t (body : M tenant A) s,
    snd (tenant_context t body s) = {| attr_tenant := Some (current s) |}
    /\ hasattr_tenant (snd (tenant_context t body s)) = true
    /\ snd (clear_tenant (snd (tenant_context t body s))) = fresh.
Proof.
  intros A t body s.
  assert (Hexit : snd (tenant_context t body s)
                  = {| attr_tenant := Some (current s) |}).
  { unfold tenant_context, bind, try_finally.
    cbn [get_current_tenant set_current_tenant].
    destruct (body {| attr_tenant := Some t |}) as [r s1]. reflexivity. }
  rewrite Hexit. repeat split.
Qed.

(** X16: tenant contexts nest: a read that follows an inner block inside
    an outer block sees the outer tenant again, whatever the inner body
    did to the store; when the inner body raises, the exception leaves
    both blocks; in either case the store answers afterwards as it did
    before the outer block. *)
Theorem tenant_context_nests :
  forall (A : Type) (outer inner : pyvalue tenant) (body : M tenant A) s,
    let program :=
      tenant_context outer
        (bind (tenant_context inner body) (fun r =>
         bind get_current_tenant (fun seen => ret (r, seen)))) in
    fst (program s)
      = match fst (body {| attr_tenant := Some inner |}) with
        | Return r => Return (r, outer)
        | Raise e => Raise e
        end
    /\ current (snd (program s)) = current s.
Proof.
  intros A outer inner body s program. subst program.
  unfold tenant_context, bind, try_finally, ret.
  cbn [get_current_tenant set_current_tenant attr_tenant].
  destruct (body {| attr_tenant := Some inner |}) as [[r|e] s1];
    split; reflexivity.
Qed.

(** X17: inside [with tenant_context(t)] the schema of the current
    tenant is the [schema_name] of [t] when [t] has one, and [public]
    when [t] is [None] or has no such attribute, whatever the store held
    before. *)
Theorem schema_inside_tenant_context :
  forall (schema_name : tenant -> option string) t s,
    let seen :=
      fst (tenant_context t
             (bind get_current_tenant (fun now =>
              ret (TenantSchema.get_tenant_schema schema_name now))) s) in
    seen = Return (TenantSchema.get_tenant_schema schema_name t)
    /\ (t = None -> seen = Return "public")
    /\ (forall obj, t = Some obj -> schema_name obj = None ->
                    seen = Return "public")
    /\ (forall obj name, t = Some obj -> schema_name obj = Some name ->
                         seen = Return name).
Proof.
  intros schema_name t s seen. subst seen.
  unfold tenant_context, bind, try_finally, ret.
  cbn [get_current_tenant set_current_tenant attr_tenant fst].
  split; [reflexivity|]. split; [|split].
  - intros ->. reflexivity.
  - intros obj -> Hnone. simpl. now rewrite Hnone.
  - intros obj name -> Hname. simpl. now rewrite Hname.
Qed.

End StoreComposition.

(** ** Properties of the user views *)

Section UserViewProperties.

Import TenantStore UserViews.
Implicit Types (s : thread_locals Z) (objects : list UserRow).

Lemma tenant_eqb_eq (a b : option Z) : tenant_eqb a b = true <-> a = b.
Proof.
  destruct a as [x|], b as [y|]; simpl; split; intros H;
    try discriminate; try reflexivity.
  - apply Z.eqb_eq in H. now subst.
  - injection H as ->. apply Z.eqb_refl.
Qed.

Lemma tenant_eqb_neq (a b : option Z) : tenant_eqb a b = false <-> a <> b.
Proof.
  rewrite <- tenant_eqb_eq. now destruct (tenant_eqb a b).
Qed.

Lemma filter_tenant_In tenant objects row :
  In row (filter_tenant tenant objects) <->
  In row objects /\ row_tenant row = tenant.
Proof.
  unfold filter_tenant. rewrite filter_In, tenant_eqb_eq. reflexivity.
Qed.

(** X18: the user list holds exactly the users of the current tenant and
    leaves the store alone; run inside [with tenant_context(t)] it holds
    exactly the users of [t], whatever tenant was current before, and on
    a store where no tenant was ever set it holds only the users without
    tenant, not everybody. *)
Theorem user_list_is_scoped_by_current_tenant :
  forall (queryset : list UserRow) s,
    (exists result,
       UserListView_get_queryset queryset s = (Return result, s)
       /\ forall row, In row result <->
                      In row queryset /\ row_tenant row = current s)
    /\ (forall t,
        exists result,
          fst (tenant_context t (UserListView_get_queryset queryset) s)
            = Return result
          /\ forall row, In row result <->
                         In row queryset /\ row_tenant row = t)
    /\ (exists result,
          fst (UserListView_get_queryset queryset fresh) = Return result
          /\ forall row, In row result -> row_tenant row = None).
Proof.
  intros queryset s. split; [|split].
  - eexists. split; [reflexivity|].
    intros row. apply filter_tenant_In.
  - intros t. eexists. split; [reflexivity|].
    intros row. apply filter_tenant_In.
  - eexists. split; [reflexivity|].
    intros row Hin. now apply filter_tenant_In in Hin.
Qed.

(** X19: a user created through the form belongs to the current tenant
    whatever tenant the form instance carried and wherever the database
    puts the new row: afterwards the current tenant's list holds the new
    user together with the users it held before, and the list of every
    other tenant holds the users it held before, each as often as
    before.  Nothing is said about the order of a list. *)
Theorem created_user_joins_current_tenant :
  forall (position : nat) (instance : UserRow) objects s,
    exists objects' listed,
      UserCreateView_form_valid position instance objects s
        = (Return objects', s)
      /\ UserListView_get_queryset objects' s = (Return listed, s)
      /\ Permutation listed
           (set_tenant (current s) instance
              :: filter_tenant (current s) objects)
      /\ forall t, t <> current s ->
                   Permutation (filter_tenant t objects')
                     (filter_tenant t objects).
Proof.
  intros position instance objects s.
  set (created := set_tenant (current s) instance).
  exists (firstn position objects ++ created :: skipn position objects)%list.
  exists (filter_tenant (current s)
            (firstn position objects ++ created :: skipn position objects)%list).
  assert (Hlist : forall t,
             Permutation
               (filter_tenant t
                  (firstn position objects ++ created :: skipn position objects)%list)
               ((if tenant_eqb (current s) t then [created] else [])
                  ++ filter_tenant t objects)%list).
  { intros t. unfold filter_tenant.
    rewrite <- (firstn_skipn position objects) at 3.
    rewrite !filter_app. cbn [filter]. unfold created at 1. cbn [row_tenant set_tenant].
    destruct (tenant_eqb (current s) t); cbn [app].
    - symmetry. apply Permutation_middle.
    - apply Permutation_refl. }
  split; [reflexivity|]. split; [reflexivity|]. split.
  - specialize (Hlist (current s)).
    now rewrite (proj2 (tenant_eqb_eq _ _) eq_refl) in Hlist.
  - intros t Hother. specialize (Hlist t).
    now rewrite (proj2 (tenant_eqb_neq (current s) t)) in Hlist by congruence.
Qed.

Lemma filter_and_length {A : Type} (p q : A -> bool) (l : list A) :
  (List.length (filter (fun x => p x && q x) l)
   <= List.length (filter p l))%nat.
Proof.
  induction l as [|x l IH]; simpl; [apply Nat.le_refl|].
  destruct (p x), (q x); simpl; lia.
Qed.

Lemma filter_app_none {A : Type} (p : A -> bool) (l others : list A) :
  (forall x, In x others -> p x = false) ->
  filter p (l ++ others)%list = filter p l.
Proof.
  intros Hnone. rewrite filter_app.
  replace (filter p others) with (@nil A); [apply app_nil_r|].
  induction others as [|x rest IH]; simpl; [reflexivity|].
  rewrite (Hnone x) by now left.
  apply IH. intros y Hy. apply Hnone. now right.
Qed.

(** X20: on the dashboard each of the three partial counters (active,
    verified, staff) lies between [0] and the counter of all users, and
    the users of other tenants are not counted: adding any number of
    them changes no counter. *)
Theorem dashboard_counts_current_tenant_only :
  forall objects s,
    exists context,
      UserDashboardView_get_context_data objects s = (Return context, s)
      /\ 0 <= active_users context <= total_users context
      /\ 0 <= verified_users context <= total_users context
      /\ 0 <= staff_users context <= total_users context
      /\ forall others,
           (forall row, In row others -> row_tenant row <> current s) ->
           UserDashboardView_get_context_data (objects ++ others)%list s
             = (Return context, s).
Proof.
  intros objects s.
  unfold UserDashboardView_get_context_data, bind.
  rewrite get_current_tenant_total. cbn [ret].
  eexists. split; [reflexivity|].
  unfold count, filter_tenant.
  cbn [total_users active_users verified_users staff_users].
  repeat split; try apply Nat2Z.is_nonneg;
    try (apply Nat2Z.inj_le; apply filter_and_length).
  intros others Hothers.
  rewrite !filter_app_none; [reflexivity | | | | ];
    intros row Hin; apply Hothers in Hin;
    apply tenant_eqb_neq in Hin; now rewrite Hin.
Qed.

End UserViewProperties.

(** *** The flag toggles *)

Section ToggleProperties.

Import TenantStore UserViews.
Implicit Types (s : thread_locals Z) (objects : list UserRow).

Lemma unique_pk objects x y :
  NoDup (map row_pk objects) -> In x objects -> In y objects ->
  row_pk x = row_pk y -> x = y.
Proof.
  induction objects as [|z rest IH]; simpl; [contradiction|].
  intros Hkeys Hx Hy Hpk. inversion Hkeys as [|? ? Hfresh Hrest]; subst.
  destruct Hx as [-> | Hx], Hy as [-> | Hy]; trivial.
  - exfalso. apply Hfresh. rewrite Hpk. now apply in_map.
  - exfalso. apply Hfresh. rewrite <- Hpk. now apply in_map.
  - now apply IH.
Qed.

Lemma save_pks user objects :
  map row_pk (save user objects) = map row_pk objects.
Proof.
  unfold save. rewrite map_map. apply map_ext. intros x.
  destruct (Z.eqb_spec (row_pk x) (row_pk user)); congruence.
Qed.

Lemma In_save user r objects :
  In r objects -> row_pk r = row_pk user -> In user (save user objects).
Proof.
  intros Hin Hpk. unfold save.
  apply in_map_iff. exists r. split; [|exact Hin].
  now rewrite Hpk, Z.eqb_refl.
Qed.

Lemma save_back user r objects :
  NoDup (map row_pk objects) -> In r objects -> row_pk user = row_pk r ->
  save r (save user objects) = objects.
Proof.
  intros Hkeys Hin Hpk. unfold save. rewrite map_map.
  rewrite <- (map_id objects) at 2. apply map_ext_in. intros x Hx.
  destruct (Z.eqb_spec (row_pk x) (row_pk user)) as [Hsame | Hother].
  - rewrite Hpk, Z.eqb_refl. apply (unique_pk objects); congruence.
  - destruct (Z.eqb_spec (row_pk x) (row_pk r)); congruence.
Qed.

Lemma save_as_map (change : UserRow -> UserRow) r objects :
  NoDup (map row_pk objects) -> In r objects ->
  row_pk (change r) = row_pk r ->
  save (change r) objects
  = map (fun x => if Z.eqb (row_pk x) (row_pk r) then change x else x) objects.
Proof.
  intros Hkeys Hin Hpk. unfold save. apply map_ext_in. intros x Hx.
  rewrite Hpk.
  destruct (Z.eqb_spec (row_pk x) (row_pk r)) as [Hsame | _]; [|reflexivity].
  now rewrite (unique_pk objects x r Hkeys Hx Hin Hsame).
Qed.

Lemma filter_pk_absent (q : UserRow -> bool) pk objects :
  ~ In pk (map row_pk objects) ->
  filter (fun x => Z.eqb (row_pk x) pk && q x) objects = [].
Proof.
  induction objects as [|x rest IH]; simpl; [reflexivity|].
  intros Habsent.
  destruct (Z.eqb_spec (row_pk x) pk) as [Hpk | _]; simpl.
  - exfalso. apply Habsent. now left.
  - apply IH. intros Hin. apply Habsent. now right.
Qed.

Lemma filter_pk_unique (q : UserRow -> bool) r objects :
  NoDup (map row_pk objects) -> In r objects ->
  filter (fun x => Z.eqb (row_pk x) (row_pk r) && q x) objects
  = if q r then [r] else [].
Proof.
  induction objects as [|x rest IH]; simpl; [contradiction|].
  intros Hkeys Hin. inversion Hkeys as [|? ? Hfresh Hrest]; subst.
  destruct Hin as [-> | Hin].
  - rewrite Z.eqb_refl, (filter_pk_absent q _ _ Hfresh). simpl.
    now destruct (q r).
  - destruct (Z.eqb_spec (row_pk x) (row_pk r)) as [Hpk | _]; simpl.
    + exfalso. apply Hfresh. rewrite Hpk. now apply in_map.
    + now apply IH.
Qed.

Lemma get_object_or_404_found pk tenant objects r :
  get_object_or_404 pk tenant objects = Return r ->
  In r objects /\ row_pk r = pk /\ row_tenant r = tenant.
Proof.
  unfold get_object_or_404.
  destruct (filter _ objects) as [|x [|y rest]] eqn:Hfilter; try discriminate.
  intros [= ->].
  assert (Hin : In r (filter (fun x => Z.eqb (row_pk x) pk
                                       && tenant_eqb (row_tenant x) tenant)
                        objects)) by (rewrite Hfilter; now left).
  apply filter_In in Hin. destruct Hin as [Hin Hkeep].
  apply andb_true_iff in Hkeep. destruct Hkeep as [Hpk Htenant].
  apply Z.eqb_eq in Hpk. apply tenant_eqb_eq in Htenant. auto.
Qed.

Lemma get_object_or_404_unique r objects :
  NoDup (map row_pk objects) -> In r objects ->
  get_object_or_404 (row_pk r) (row_tenant r) objects = Return r.
Proof.
  intros Hkeys Hin. unfold get_object_or_404.
  rewrite (filter_pk_unique (fun x => tenant_eqb (row_tenant x) (row_tenant r))
             r objects Hkeys Hin).
  now rewrite (proj2 (tenant_eqb_eq _ _) eq_refl).
Qed.

Lemma get_object_or_404_missing pk tenant objects :
  (forall x, In x objects -> row_pk x = pk -> row_tenant x <> tenant) ->
  get_object_or_404 pk tenant objects
  = Raise (Http404 "No User matches the given query.").
Proof.
  intros Hnone. unfold get_object_or_404.
  replace (filter _ objects) with (@nil UserRow); [reflexivity|].
  symmetry. induction objects as [|x rest IH]; simpl; [reflexivity|].
  destruct (Z.eqb_spec (row_pk x) pk) as [Hpk | _]; simpl.
  - rewrite (proj2 (tenant_eqb_neq _ _))
      by (apply Hnone; [now left | exact Hpk]).
    apply IH. intros y Hy. apply Hnone. now right.
  - apply IH. intros y Hy. apply Hnone. now right.
Qed.

Lemma toggle_post_run change answer pk objects s :
  toggle_post change answer pk objects s
  = (match get_object_or_404 pk (current s) objects with
     | Return user => Return (answer (change user), save (change user) objects)
     | Raise e => Raise e
     end, s).
Proof.
  unfold toggle_post, bind, lift. rewrite get_current_tenant_total.
  now destruct (get_object_or_404 pk (current s) objects).
Qed.

Lemma toggle_posts_shape post :
  In post toggle_posts ->
  exists change answer, post = toggle_post change answer /\ flips change.
Proof.
  intros [<- | [<- | [<- | []]]].
  - exists toggle_is_active,
      (fun user =>
         [("success", JBool true);
          ("is_active", JBool (row_is_active user));
          ("message",
           JStr (if row_is_active user
                 then "User activated successfully."
                 else "User deactivated successfully."))]).
    split; [reflexivity|].
    intros [pk t a b c]. unfold toggle_is_active. simpl.
    now rewrite negb_involutive.
  - exists toggle_is_verified,
      (fun user =>
         [("success", JBool true);
          ("is_verified", JBool (row_is_verified user));
          ("message",
           JStr (if row_is_verified user
                 then "User verification enabled successfully."
                 else "User verification disabled successfully."))]).
    split; [reflexivity|].
    intros [pk t a b c]. unfold toggle_is_verified. simpl.
    now rewrite negb_involutive.
  - exists toggle_is_staff,
      (fun user =>
         [("success", JBool true);
          ("is_staff", JBool (row_is_staff user));
          ("message",
           JStr (if row_is_staff user
                 then "User staff status enabled successfully."
                 else "User staff status disabled successfully."))]).
    split; [reflexivity|].
    intros [pk t a b c]. unfold toggle_is_staff. simpl.
    now rewrite negb_involutive.
Qed.

Lemma filter_map_fixed {A : Type} (keep : A -> bool) (f : A -> A) (l : list A) :
  (forall x, In x l -> f x = x \/ (keep x = false /\ keep (f x) = false)) ->
  filter keep (map f l) = filter keep l.
Proof.
  induction l as [|x rest IH]; simpl; [reflexivity|].
  intros Hfixed.
  rewrite IH by (intros y Hy; apply Hfixed; now right).
  destruct (Hfixed x (or_introl eq_refl)) as [-> | [-> ->]]; reflexivity.
Qed.

End ToggleProperties.

Section ToggleTheorems.

Import TenantStore UserViews.
Implicit Types (s : thread_locals Z) (objects : list UserRow).

(** X21: in a table with pairwise different keys, a successful status
    toggle changes the [is_active] flag of the row with the given key and
    nothing else -- no other row, no other column, no key -- the row
    belongs to the current tenant, and the response reports the flag as
    it now stands in the table. *)
Theorem status_toggle_changes_one_flag :
  forall pk objects s resp objects',
    NoDup (map row_pk objects) ->
    fst (ToggleUserStatusView_post pk objects s) = Return (resp, objects') ->
    objects'
      = map (fun x => if Z.eqb (row_pk x) pk then toggle_is_active x else x)
          objects
    /\ map row_pk objects' = map row_pk objects
    /\ exists r,
         In r objects /\ row_pk r = pk /\ row_tenant r = current s
         /\ In (toggle_is_active r) objects'
         /\ resp = [("success", JBool true);
                    ("is_active", JBool (negb (row_is_active r)));
                    ("message",
                     JStr (if negb (row_is_active r)
                           then "User activated successfully."
                           else "User deactivated successfully."))].
Proof.
  intros pk objects s resp objects' Hkeys.
  change (ToggleUserStatusView_post pk objects s)
    with (toggle_post toggle_is_active
            (fun user =>
               [("success", JBool true);
                ("is_active", JBool (row_is_active user));
                ("message",
                 JStr (if row_is_active user
                       then "User activated successfully."
                       else "User deactivated successfully."))])
            pk objects s).
  rewrite toggle_post_run. cbn [fst].
  destruct (get_object_or_404 pk (current s) objects) as [r|e] eqn:Hget;
    [|discriminate].
  intros [= <- <-].
  apply get_object_or_404_found in Hget. destruct Hget as (Hin & Hpk & Htenant).
  split; [|split].
  - subst pk. now apply (save_as_map toggle_is_active).
  - apply save_pks.
  - exists r. repeat split; trivial.
    now apply (In_save _ r).
Qed.

Lemma status_toggle_changes_one_flag_witness :
  exists resp objects',
    fst (ToggleUserStatusView_post 2 Cases.users Cases.serving_1)
      = Return (resp, objects')
    /\ map row_is_active objects' = [true; true; true]
    /\ map row_is_verified objects' = map row_is_verified Cases.users.
Proof.
  eexists. eexists. split; [reflexivity|].
  assert (Hkeys : NoDup (map row_pk Cases.users)).
  { simpl. repeat constructor; simpl; intuition discriminate. }
  destruct (status_toggle_changes_one_flag 2 Cases.users Cases.serving_1
              _ _ Hkeys eq_refl) as (Htable & _ & _).
  rewrite Htable. split; reflexivity.
Defined.

(** X22: a toggle never touches the users of another tenant: whichever
    of the three toggles runs, with whatever key, and however it ends,
    the users of every tenant but the current one are afterwards what
    they were (keys being pairwise different). *)
Theorem toggle_leaves_other_tenants_alone :
  forall post pk objects s t,
    In post toggle_posts ->
    NoDup (map row_pk objects) ->
    t <> current s ->
    filter_tenant t (table_after objects (fst (post pk objects s)))
      = filter_tenant t objects.
Proof.
  intros post pk objects s t Hpost Hkeys Hother.
  destruct (toggle_posts_shape post Hpost) as (change & answer & -> & Hflip).
  rewrite toggle_post_run. cbn [fst].
  destruct (get_object_or_404 pk (current s) objects) as [r|e] eqn:Hget;
    [|reflexivity].
  cbn [table_after].
  apply get_object_or_404_found in Hget. destruct Hget as (Hin & Hpk & Htenant).
  destruct (Hflip r) as (Hsame_pk & Hsame_tenant & _).
  unfold filter_tenant, save.
  apply filter_map_fixed. intros x Hx.
  destruct (Z.eqb_spec (row_pk x) (row_pk (change r))) as [Hsame | _];
    [right | now left].
  assert (x = r) as -> by (apply (unique_pk objects); congruence).
  rewrite Hsame_tenant.
  split; apply tenant_eqb_neq; congruence.
Qed.

Lemma toggle_leaves_other_tenants_alone_witness :
  filter_tenant (Some 2)
    (table_after Cases.users
       (fst (ToggleUserStaffView_post 1 Cases.users Cases.serving_1)))
  = filter_tenant (Some 2) Cases.users.
Proof.
  apply (toggle_leaves_other_tenants_alone ToggleUserStaffView_post 1
           Cases.users Cases.serving_1 (Some 2)).
  - right. right. left. reflexivity.
  - simpl. repeat constructor; simpl; intuition discriminate.
  - discriminate.
Defined.

(** X23: each of the three toggles undoes itself: in a table with
    pairwise different keys, a successful toggle followed by the same
    request succeeds again and gives the table back as it was. *)
Theorem toggle_twice_restores_the_table :
  forall post pk objects s resp objects',
    In post toggle_posts ->
    NoDup (map row_pk objects) ->
    fst (post pk objects s) = Return (resp, objects') ->
    exists resp', fst (post pk objects' s) = Return (resp', objects).
Proof.
  intros post pk objects s resp objects' Hpost Hkeys.
  destruct (toggle_posts_shape post Hpost) as (change & answer & -> & Hflip).
  rewrite !toggle_post_run. cbn [fst].
  destruct (get_object_or_404 pk (current s) objects) as [r|e] eqn:Hget;
    [|discriminate].
  intros [= <- <-].
  apply get_object_or_404_found in Hget. destruct Hget as (Hin & Hpk & Htenant).
  destruct (Hflip r) as (Hsame_pk & Hsame_tenant & Hundo).
  assert (Hagain : get_object_or_404 pk (current s) (save (change r) objects)
                   = Return (change r)).
  { rewrite <- Hpk, <- Htenant, <- Hsame_pk, <- Hsame_tenant.
    apply get_object_or_404_unique.
    - now rewrite save_pks.
    - now apply (In_save _ r). }
  rewrite Hagain, Hundo. eexists. f_equal. f_equal.
  now apply save_back.
Qed.

Lemma toggle_twice_restores_the_table_witness :
  exists resp objects' resp',
    fst (ToggleUserVerificationView_post 1 Cases.users Cases.serving_1)
      = Return (resp, objects')
    /\ fst (ToggleUserVerificationView_post 1 objects' Cases.serving_1)
       = Return (resp', Cases.users).
Proof.
  assert (Hkeys : NoDup (map row_pk Cases.users)).
  { simpl. repeat constructor; simpl; intuition discriminate. }
  assert (Hpost : In ToggleUserVerificationView_post toggle_posts).
  { right. left. reflexivity. }
  destruct (fst (ToggleUserVerificationView_post 1 Cases.users Cases.serving_1))
    as [[resp objects']|e] eqn:Hfirst; [|discriminate].
  destruct (toggle_twice_restores_the_table ToggleUserVerificationView_post 1
              Cases.users Cases.serving_1 resp objects' Hpost Hkeys Hfirst)
    as [resp' Hsecond].
  exists resp, objects', resp'. split; [reflexivity | exact Hsecond].
Defined.

(** X24: a toggle reaches a user only through the current tenant: with
    pairwise different keys it succeeds exactly when the table holds a
    row with the given key in the current tenant; a key that is missing,
    or that belongs to a user of another tenant, ends in the same
    [Http404], and the table and the store stay as they were. *)
Theorem toggle_finds_only_current_tenant :
  forall post pk objects s,
    In post toggle_posts ->
    NoDup (map row_pk objects) ->
    ((exists r, In r objects /\ row_pk r = pk /\ row_tenant r = current s)
     <-> exists resp objects', fst (post pk objects s) = Return (resp, objects'))
    /\ ((forall x, In x objects -> row_pk x = pk -> row_tenant x <> current s) ->
        post pk objects s
          = (Raise (Http404 "No User matches the given query."), s)
        /\ table_after objects (fst (post pk objects s)) = objects)
    /\ snd (post pk objects s) = s.
Proof.
  intros post pk objects s Hpost Hkeys.
  destruct (toggle_posts_shape post Hpost) as (change & answer & -> & Hflip).
  rewrite !toggle_post_run. cbn [fst snd].
  split; [|split; [|reflexivity]].
  - split.
    + intros (r & Hin & <- & <-).
      rewrite (get_object_or_404_unique r objects Hkeys Hin).
      eexists. eexists. reflexivity.
    + intros (resp & objects' & Hrun).
      destruct (get_object_or_404 pk (current s) objects) as [r|e] eqn:Hget;
        [|discriminate].
      exists r. now apply get_object_or_404_found.
  - intros Hnone.
    rewrite (get_object_or_404_missing pk (current s) objects Hnone).
    split; reflexivity.
Qed.

(** User 3 belongs to tenant 2; the thread serves tenant 1. *)
Lemma toggle_finds_only_current_tenant_witness :
  ToggleUserStatusView_post 3 Cases.users Cases.serving_1
    = (Raise (Http404 "No User matches the given query."), Cases.serving_1).
Proof.
  assert (Hkeys : NoDup (map row_pk Cases.users)).
  { simpl. repeat constructor; simpl; intuition discriminate. }
  destruct (toggle_finds_only_current_tenant ToggleUserStatusView_post 3
              Cases.users Cases.serving_1 (or_introl eq_refl) Hkeys)
    as (_ & Hmissing & _).
  apply Hmissing.
  intros x Hx Hpk. simpl in Hx.
  destruct Hx as [<- | [<- | [<- | []]]]; discriminate.
Defined.

(** X25: the whole request to the status toggle: an anonymous user, and
    a user who is no superuser and does not hold [users.change_user], get
    [PermissionDenied] and the table is not written; a superuser and a
    holder of the permission get what the handler does. *)
Theorem status_toggle_request :
  forall (user : request_user)
         (login : outcome (JsonResponse * list UserRow)) pk objects s,
    let run := ToggleUserStatusView_dispatch user login pk objects s in
    (PermissionRequiredMixin.has_permission toggle_view user = true
     <-> is_superuser user = true
         \/ has_perm user "users.change_user" None = true)
    /\ (PermissionRequiredMixin.has_permission toggle_view user = false ->
        run = (Raise PermissionDenied, s)
        /\ table_after objects (fst run) = objects)
    /\ (PermissionRequiredMixin.has_permission toggle_view user = true ->
        run = ToggleUserStatusView_post pk objects s).
Proof.
  intros user login pk objects s run. subst run.
  unfold ToggleUserStatusView_dispatch, PermissionRequiredMixin.dispatch.
  split; [|split].
  - unfold PermissionRequiredMixin.has_permission. simpl.
    destruct user as [|u]; simpl.
    + split; [discriminate | intros [H | H]; discriminate].
    + destruct (user_is_superuser u); [tauto|].
      split; [now right | intros [H | H]; [discriminate | exact H]].
  - intros ->. split; reflexivity.
  - intros ->. cbn [negb].
    change (ToggleUserStatusView_post pk objects s)
      with (toggle_post toggle_is_active
              (fun user =>
                 [("success", JBool true);
                  ("is_active", JBool (row_is_active user));
                  ("message",
                   JStr (if row_is_active user
                         then "User activated successfully."
                         else "User deactivated successfully."))])
              pk objects s).
    now rewrite toggle_post_run.
Qed.

End ToggleTheorems.
